(** * calendar-api: a Flask facade over a calendar provider's event store

    A shallow embedding of [src/app.py].  The module keeps no state of its
    own between requests: every handler obtains a service object from
    [get_calendar_service], performs one or two calls on the provider and
    shapes a JSON envelope.  The embedding therefore consists of

    - the Python values the handlers manipulate (JSON documents,
      exceptions, naive datetimes);
    - the imported libraries and the interpreter's readers of text, as
      an interface ([Collaborators]);
    - the world a request runs in (environment, local files, provider
      state, a log of the calls made to collaborators) with a state and
      exception monad over it;
    - the functions of [app.py], statement by statement. *)

From stdpp Require Import gmap strings list fin_maps pretty.
From Stdlib Require Import ZArith Lia Ascii.

Set Warnings "-register-all".
Open Scope Z_scope.

(** ** JSON documents

    [request.json], the bodies sent to the provider and the documents it
    answers with are Python dicts, lists, strings, integers, booleans and
    [None].  Floating point numbers are outside the model. *)

Inductive json : Type :=
  | JNull
  | JBool (b : bool)
  | JNum (n : Z)
  | JStr (s : string)
  | JArr (l : list json)
  | JObj (m : gmap string json).

(** ** Exceptions and results

    Every handler catches [Exception] and reports [str(e)]; an exception
    is modelled by its class and by that string. *)

Inductive exn_class : Type :=
  | Exception | KeyError | TypeError | AttributeError
  | ValueError | OverflowError | LibraryError.

Record exn : Type := Exn { exn_cls : exn_class; exn_str : string }.

Inductive result (A : Type) : Type :=
  | Return (a : A)
  | Raise (e : exn).
Arguments Return {A} a.
Arguments Raise {A} e.

Definition result_bind {A B} (r : result A) (k : A → result B) : result B :=
  match r with
  | Return a => k a
  | Raise e => Raise e
  end.
Arguments result_bind {A B} & r k.

(** [x ← r; k] on results: the first exception ends the computation. *)
Declare Scope result_scope.
Delimit Scope result_scope with R.
Notation "x ← y ; z" := (result_bind y (λ x, z))
  (at level 20, y at level 100, z at level 200, only parsing) : result_scope.
Notation "' x ← y ; z" := (result_bind y (λ x, z))
  (at level 20, x pattern, y at level 100, z at level 200, only parsing)
  : result_scope.

(** [for x in l: out.append(f x)] *)
Fixpoint for_each {A B} (f : A → result B) (l : list A) : result (list B) :=
  match l with
  | [] => Return []
  | x :: l' =>
      result_bind (f x) (λ y,
      result_bind (for_each f l') (λ ys, Return (y :: ys)))
  end.

Definition is_Return {A} (r : result A) : bool :=
  match r with Return _ => true | Raise _ => false end.

(** ** Python operations on JSON values *)

Module Py.

(** The name [type(v).__name__] used in interpreter messages. *)
Definition type_name (v : json) : string :=
  match v with
  | JNull => "NoneType"
  | JBool _ => "bool"
  | JNum _ => "int"
  | JStr _ => "str"
  | JArr _ => "list"
  | JObj _ => "dict"
  end.

(** Truth value of an optional string: [None] and [''] are false.
    [nonempty] keeps the string when it is true. *)
Definition nonempty (s : option string) : option string :=
  match s with
  | Some s => if String.eqb s "" then None else Some s
  | None => None
  end.

Definition truthy (s : option string) : bool :=
  bool_decide (is_Some (nonempty s)).

(** [d.get(k, default)]: only dicts have the method. *)
Definition get (d : json) (k : string) (dflt : json) : result json :=
  match d with
  | JObj m => Return (default dflt (m !! k))
  | _ => Raise (Exn AttributeError
           ("'" +:+ type_name d +:+ "' object has no attribute 'get'"))
  end.

(** [d[k]] for a string [k]. *)
Definition getitem (d : json) (k : string) : result json :=
  match d with
  | JObj m =>
      match m !! k with
      | Some v => Return v
      | None => Raise (Exn KeyError ("'" +:+ k +:+ "'"))
      end
  | JArr _ => Raise (Exn TypeError
                "list indices must be integers or slices, not str")
  | JStr _ => Raise (Exn TypeError "string indices must be integers")
  | _ => Raise (Exn TypeError
           ("'" +:+ type_name d +:+ "' object is not subscriptable"))
  end.

Definition is_str (k : string) (v : json) : bool :=
  match v with
  | JStr s => String.eqb s k
  | _ => false
  end.

(** [k in d] for a string [k]: key of a dict, element of a list,
    substring of a string. *)
Definition contains (k : string) (d : json) : result bool :=
  match d with
  | JObj m => Return (bool_decide (is_Some (m !! k)))
  | JArr l => Return (existsb (is_str k) l)
  | JStr s => Return (bool_decide (is_Some (String.index 0 k s)))
  | _ => Raise (Exn TypeError
           ("argument of type '" +:+ type_name d +:+ "' is not iterable"))
  end.

(** [d[k] = v]. *)
Definition setitem (d : json) (k : string) (v : json) : result json :=
  match d with
  | JObj m => Return (JObj (<[k := v]> m))
  | JArr _ => Raise (Exn TypeError
                "list indices must be integers or slices, not str")
  | _ => Raise (Exn TypeError
           ("'" +:+ type_name d +:+
            "' object does not support item assignment"))
  end.

(** [for x in v]: the elements of a list, the characters of a string,
    the keys of a dict (whose order is the map's, not the insertion
    order: every element is a string in any case). *)
Definition iter (v : json) : result (list json) :=
  match v with
  | JArr l => Return l
  | JStr s => Return ((λ c, JStr (String c "")) <$> String.list_ascii_of_string s)
  | JObj m => Return (JStr <$> (map_to_list m).*1)
  | _ => Raise (Exn TypeError
           ("'" +:+ type_name v +:+ "' object is not iterable"))
  end.

(** [str(v)], which is also what an f-string field prints.  The text
    printed for a list or a dict is left to [repr]. *)
Definition str (repr : json → string) (v : json) : string :=
  match v with
  | JNull => "None"
  | JBool true => "True"
  | JBool false => "False"
  | JNum n => pretty n
  | JStr s => s
  | JArr _ | JObj _ => repr v
  end.

End Py.

(** ** Naive datetimes

    The part of [datetime] that [get_events] uses once the text of the
    request has been read: [timedelta(days=n)], [+] and [isoformat()].
    A datetime parsed with the format ['%Y-%m-%d'] is at midnight and
    adding whole days keeps it there, so a value is a civil date.  The
    ordinal arithmetic is CPython's ([_ymd2ord], [_ord2ymd]). *)

Module Datetime.

Record t : Type := mk { year : Z; month : Z; day : Z }.

Definition is_leap (y : Z) : bool :=
  (y mod 4 =? 0) && (negb (y mod 100 =? 0) || (y mod 400 =? 0)).

Definition days_before_year (year : Z) : Z :=
  let y := year - 1 in
  y * 365 + y / 4 - y / 100 + y / 400.

Definition DAYS_IN_MONTH : list Z :=
  [-1; 31; 28; 31; 30; 31; 30; 31; 31; 30; 31; 30; 31].

Definition DAYS_BEFORE_MONTH : list Z :=
  [-1; 0; 31; 59; 90; 120; 151; 181; 212; 243; 273; 304; 334].

Definition days_in_month (y m : Z) : Z :=
  if (m =? 2) && is_leap y then 29
  else nth (Z.to_nat m) DAYS_IN_MONTH 0.

Definition days_before_month (y m : Z) : Z :=
  nth (Z.to_nat m) DAYS_BEFORE_MONTH 0
  + (if (2 <? m) && is_leap y then 1 else 0).

Definition ymd2ord (y m d : Z) : Z :=
  days_before_year y + days_before_month y m + d.

Definition DI400Y : Z := days_before_year 401.
Definition DI100Y : Z := days_before_year 101.
Definition DI4Y : Z := days_before_year 5.
Definition MAXORDINAL : Z := 3652059.

(** The month and the day of the [n]-th day (from 0) of a year: an
    estimate of the month that is exact or one too large, corrected
    with the tables. *)
Definition month_day (leapyear : bool) (n : Z) : Z * Z :=
  let month := Z.shiftr (n + 50) 5 in
  let preceding :=
    nth (Z.to_nat month) DAYS_BEFORE_MONTH 0
    + (if (2 <? month) && leapyear then 1 else 0) in
  if n <? preceding then
    let month := month - 1 in
    let preceding :=
      preceding
      - (nth (Z.to_nat month) DAYS_IN_MONTH 0
         + (if (month =? 2) && leapyear then 1 else 0)) in
    (month, n - preceding + 1)
  else (month, n - preceding + 1).

Definition ord2ymd (n : Z) : t :=
  let n := n - 1 in
  let n400 := n / DI400Y in
  let n := n mod DI400Y in
  let year := n400 * 400 + 1 in
  let n100 := n / DI100Y in
  let n := n mod DI100Y in
  let n4 := n / DI4Y in
  let n := n mod DI4Y in
  let n1 := n / 365 in
  let n := n mod 365 in
  let year := year + n100 * 100 + n4 * 4 + n1 in
  if (n1 =? 4) || (n100 =? 4) then mk (year - 1) 12 31
  else
    let leapyear := (n1 =? 3) && (negb (n4 =? 24) || (n100 =? 3)) in
    let '(month, day) := month_day leapyear n in
    mk year month day.

Definition toordinal (d : t) : Z := ymd2ord (year d) (month d) (day d).

(** The constructor's range check. *)
Definition valid (d : t) : bool :=
  (1 <=? year d) && (year d <=? 9999)
  && (1 <=? month d) && (month d <=? 12)
  && (1 <=? day d) && (day d <=? days_in_month (year d) (month d)).

(** [timedelta(days=n)]: the number of days is converted to a C [int]
    and then checked against the magnitude a [timedelta] can hold. *)
Definition timedelta (n : Z) : result Z :=
  if (-2147483648 <=? n) && (n <=? 2147483647) then
    if (-999999999 <=? n) && (n <=? 999999999) then Return n
    else Raise (Exn OverflowError
           ("days=" +:+ pretty n +:+ "; must have magnitude <= 999999999"))
  else Raise (Exn OverflowError "Python int too large to convert to C int").

(** [d + delta]. *)
Definition add (d : t) (delta : Z) : result t :=
  let o := toordinal d + delta in
  if (0 <? o) && (o <=? MAXORDINAL) then Return (ord2ymd o)
  else Raise (Exn OverflowError "date value out of range").

Definition pad (width : nat) (n : Z) : string :=
  let s := pretty n in
  String.concat "" (replicate (width - String.length s) "0") +:+ s.

(** [d.isoformat()] at midnight. *)
Definition isoformat (d : t) : string :=
  pad 4 (year d) +:+ "-" +:+ pad 2 (month d) +:+ "-" +:+ pad 2 (day d)
  +:+ "T00:00:00".

(** A check of [month_day] against the tables, run below on every day of
    a year. *)
Definition leap_day (leap : bool) : Z := if leap then 1 else 0.

Definition month_day_ok (leap : bool) (n : Z) : bool :=
  let '(m, d) := month_day leap n in
  (1 <=? m) && (m <=? 12) && (1 <=? d)
  && (d <=? nth (Z.to_nat m) DAYS_IN_MONTH 0 + leap_day ((m =? 2) && leap))
  && (nth (Z.to_nat m) DAYS_BEFORE_MONTH 0 + leap_day ((2 <? m) && leap) + d
      =? n + 1).

End Datetime.

(** ** The imported libraries

    [json], [pickle], [google.oauth2], [google_auth_oauthlib] and
    [googleapiclient] are opaque to [app.py].  They are taken as an
    interface: the types of the objects they hand out, the state of the
    two remote parties (the authorization server and the calendar), and
    one function per entry point the module calls.  Reading the calendar
    ([list], [get]) does not change it.

    The interface also holds the two readers of text that [get_events]
    calls, the built-in [int] and [datetime.strptime] with the format
    ['%Y-%m-%d'].  Which texts they accept is the interpreter's business
    (decimal digits of any script, blanks, underscores, a limit on the
    number of digits) and nothing below depends on it: the statements
    speak of the number and of the date that were read.  A [datetime]
    holds a date of the calendar; a statement that needs this says so
    with [Datetime.valid]. *)

Inductive file (C : Type) : Type :=
  | Pickle (c : C)
  | Text (s : string).
Arguments Pickle {C} c.
Arguments Text {C} s.

Record list_args : Type := ListArgs {
  calendarId : string;
  timeMin : option string;
  timeMax : option string;
  maxResults : Z;
  singleEvents : bool;
  orderBy : string;
  q : option string
}.

Class Collaborators : Type := {
  Credentials : Type;
  Flow : Type;
  Service : Type;
  AuthServer : Type;
  Calendar : Type;
  (** [repr] of a list or a dict *)
  repr : json → string;
  (** [int(s)] for a [str] argument *)
  int : string → result Z;
  (** [datetime.strptime(s, '%Y-%m-%d')] *)
  strptime : string → result Datetime.t;
  json_loads : string → result json;
  from_authorized_user_info : json → list string → result Credentials;
  valid : Credentials → bool;
  expired : Credentials → bool;
  refresh_token : Credentials → option string;
  refresh : Credentials → AuthServer → result Credentials * AuthServer;
  from_client_config : json → list string → result Flow;
  from_client_secrets_file : file Credentials → list string → result Flow;
  run_local_server : Flow → AuthServer → result Credentials * AuthServer;
  build : option Credentials → result Service;
  events_list : Service → list_args → Calendar → result json;
  events_get : Service → string → string → Calendar → result json;
  events_insert :
    Service → string → json → Calendar → result json * Calendar;
  events_update :
    Service → string → string → json → Calendar → result json * Calendar;
  events_delete :
    Service → string → string → Calendar → result json * Calendar
}.

(** ** The world of a request *)

(** What the module asks of its collaborators, in the order it asks. *)
Inductive call : Type :=
  | Print (line : string)
  | PathExists (path : string)
  | OpenRead (path : string)
  | OpenWrite (path : string)
  | Refresh
  | RunLocalServer
  | Build
  | EventsList (a : list_args)
  | EventsGet (calendar_id event_id : string)
  | EventsInsert (calendar_id : string) (body : json)
  | EventsUpdate (calendar_id event_id : string) (body : json)
  | EventsDelete (calendar_id event_id : string).

Declare Scope M_scope.
Delimit Scope M_scope with M.

Section App.
Context `{L : Collaborators}.

Record world : Type := World {
  environ : gmap string string;
  files : gmap string (file Credentials);
  (** [datetime.now().strftime('%Y-%m-%d')] *)
  today : string;
  auth_server : AuthServer;
  calendar : Calendar;
  calls : list call
}.

Definition M (A : Type) : Type := world → result A * world.

Definition ret {A} (a : A) : M A := λ w, (Return a, w).
Definition bind {A B} (m : M A) (k : A → M B) : M B := λ w,
  match m w with
  | (Return a, w') => k a w'
  | (Raise e, w') => (Raise e, w')
  end.
#[global] Arguments bind {A B} & m k.

Notation "x ← y ; z" := (bind y (λ x, z))
  (at level 20, y at level 100, z at level 200, only parsing) : M_scope.
Local Open Scope M_scope.

Definition gets {A} (f : world → A) : M A := λ w, (Return (f w), w).
Definition lift {A} (r : result A) : M A := λ w, (r, w).
Definition raise {A} (e : exn) : M A := lift (Raise e).

(** [try: body  except Exception as e: handler e] *)
Definition try_except {A} (body : M A) (handler : exn → M A) : M A := λ w,
  match body w with
  | (Return a, w') => (Return a, w')
  | (Raise e, w') => handler e w'
  end.

(** The world after the calls [l] have been made and logged. *)
Definition record (w : world) (l : list call) : world :=
  World (environ w) (files w) (today w) (auth_server w) (calendar w)
        (calls w ++ l).

Definition log (c : call) : M unit := λ w, (Return (), record w [c]).

Definition set_file (path : string) (f : file Credentials) : M unit := λ w,
  (Return (),
   World (environ w) (<[path := f]> (files w)) (today w) (auth_server w)
         (calendar w) (calls w)).

(** A call that may change the authorization server. *)
Definition on_auth_server {A}
    (f : AuthServer → result A * AuthServer) : M A := λ w,
  let '(r, a) := f (auth_server w) in
  (r, World (environ w) (files w) (today w) a (calendar w) (calls w)).

(** A call that may change the calendar. *)
Definition on_calendar {A}
    (f : Calendar → result A * Calendar) : M A := λ w,
  let '(r, c) := f (calendar w) in
  (r, World (environ w) (files w) (today w) (auth_server w) c (calls w)).

(** *** Local effects *)

Definition print (line : string) : M unit := log (Print line).

(** [os.path.exists(path)] *)
Definition path_exists (path : string) : M bool :=
  _ ← log (PathExists path);
  gets (λ w, bool_decide (is_Some (files w !! path))).

(** [open(path, 'rb')], yielding what the file holds. *)
Definition open_read (path : string) : M (file Credentials) :=
  _ ← log (OpenRead path);
  f ← gets (λ w, files w !! path);
  match f with
  | Some f => ret f
  | None => raise (Exn LibraryError
              ("[Errno 2] No such file or directory: '" +:+ path +:+ "'"))
  end.

(** [pickle.load(token)] *)
Definition pickle_load (f : file Credentials) : M Credentials :=
  match f with
  | Pickle c => ret c
  | Text _ => raise (Exn LibraryError "could not unpickle the file")
  end.

(** [with open(path, 'wb') as token: pickle.dump(creds, token)] *)
Definition pickle_dump (creds : Credentials) (path : string) : M unit :=
  _ ← log (OpenWrite path);
  set_file path (Pickle creds).

(** *** Module constants (lines 15-21) *)

Definition SCOPES : list string :=
  ["https://www.googleapis.com/auth/calendar"].

Definition API_KEY (w : world) : string :=
  default "dev-key-for-local-testing" (environ w !! "API_KEY").
Definition GOOGLE_CREDENTIALS (w : world) : option string :=
  environ w !! "GOOGLE_CREDENTIALS".
Definition GOOGLE_TOKEN (w : world) : option string :=
  environ w !! "GOOGLE_TOKEN".

(** *** Remote effects *)

Definition creds_refresh (creds : Credentials) : M Credentials :=
  _ ← log Refresh;
  on_auth_server (refresh creds).

Definition flow_run_local_server (flow : Flow) : M Credentials :=
  _ ← log RunLocalServer;
  on_auth_server (run_local_server flow).

Definition service_build (creds : option Credentials) : M Service :=
  _ ← log Build;
  lift (build creds).

Definition service_events_list (service : Service) (a : list_args)
    : M json :=
  _ ← log (EventsList a);
  c ← gets calendar;
  lift (events_list service a c).

Definition service_events_get (service : Service) (cid eid : string)
    : M json :=
  _ ← log (EventsGet cid eid);
  c ← gets calendar;
  lift (events_get service cid eid c).

Definition service_events_insert (service : Service) (cid : string)
    (body : json) : M json :=
  _ ← log (EventsInsert cid body);
  on_calendar (events_insert service cid body).

Definition service_events_update (service : Service) (cid eid : string)
    (body : json) : M json :=
  _ ← log (EventsUpdate cid eid body);
  on_calendar (events_update service cid eid body).

Definition service_events_delete (service : Service) (cid eid : string)
    : M json :=
  _ ← log (EventsDelete cid eid);
  on_calendar (events_delete service cid eid).

(** *** [get_calendar_service] (lines 33-81) *)

(** Lines 35-48: the inline token first, [elif] the local file. *)
Definition load_credentials : M (option Credentials) :=
  token ← gets GOOGLE_TOKEN;
  match Py.nonempty token with
  | Some token =>
      try_except
        (token_data ← lift (json_loads token);
         creds ← lift (from_authorized_user_info token_data SCOPES);
         ret (Some creds))
        (λ e,
         _ ← print ("Error loading token from environment: "
                    +:+ exn_str e);
         ret None)
  | None =>
      found ← path_exists "token.pickle";
      if found then
        token ← open_read "token.pickle";
        creds ← pickle_load token;
        ret (Some creds)
      else ret None
  end.

(** [not creds or not creds.valid] *)
Definition needs_authorization (creds : option Credentials) : bool :=
  match creds with
  | None => true
  | Some c => negb (valid c)
  end.

(** [creds and creds.expired and creds.refresh_token] *)
Definition refreshable (creds : option Credentials) : option Credentials :=
  match creds with
  | Some c => if expired c && Py.truthy (refresh_token c) then Some c
              else None
  | None => None
  end.

(** Lines 62-70. *)
Definition load_flow : M Flow :=
  config ← gets GOOGLE_CREDENTIALS;
  match Py.nonempty config with
  | Some config =>
      credentials_data ← lift (json_loads config);
      lift (from_client_config credentials_data SCOPES)
  | None =>
      found ← path_exists "credentials.json";
      if found then
        secrets ← open_read "credentials.json";
        lift (from_client_secrets_file secrets SCOPES)
      else
        raise (Exn Exception
          ("No credentials found. Set GOOGLE_CREDENTIALS environment "
           +:+ "variable or provide credentials.json"))
  end.

(** Lines 51-79.  After a refresh nothing is stored: for the inline
    token the source has [pass], for the local file it has no
    statement. *)
Definition authorize (creds : option Credentials)
    : M (option Credentials) :=
  if needs_authorization creds then
    match refreshable creds with
    | Some c =>
        c ← creds_refresh c;
        ret (Some c)
    | None =>
        flow ← load_flow;
        found ← path_exists "credentials.json";
        if found then
          creds ← flow_run_local_server flow;
          _ ← pickle_dump creds "token.pickle";
          ret (Some creds)
        else
          raise (Exn Exception
            ("Cannot run OAuth flow in production without local "
             +:+ "credentials.json"))
    end
  else ret creds.

Definition get_calendar_service : M Service :=
  creds ← load_credentials;
  creds ← authorize creds;
  service_build creds.

(** *** Flask *)

Record request : Type := mk_request {
  headers : gmap string string;
  args : gmap string string;
  (** the value of [request.json], or the exception it raises *)
  body : result json
}.

(** A view's return value: the JSON document and the status code. *)
Definition response : Type := json * Z.

Definition dict (l : list (string * json)) : json := JObj (list_to_map l).

Definition jsonify (d : json) : response := (d, 200).

(** [jsonify({'success': False, 'error': msg}), status] *)
Definition error_envelope (msg : string) (status : Z) : response :=
  (dict [("success", JBool false); ("error", JStr msg)], status).

(** Lines 23-31. *)
Definition require_api_key (f : request → M response)
    : request → M response := λ req,
  let api_key := headers req !! "X-API-Key" in
  key ← gets API_KEY;
  if bool_decide (api_key ≠ Some key) then
    ret (error_envelope "Invalid or missing API key" 401)
  else f req.

(** [except Exception as e: return jsonify(...), 500] *)
Definition internal_error (e : exn) : M response :=
  ret (error_envelope (exn_str e) 500).

Definition str (v : json) : string := Py.str repr v.

(** *** Field mapping *)

(** Lines 119-126 and, in the same words, lines 266-273. *)
Definition format_event (event : json) : result json :=
  (id ← Py.getitem event "id";
   title ← Py.get event "summary" (JStr "No title");
   start ← Py.getitem event "start";
   start_date ← Py.get start "date" JNull;
   start ← Py.get start "dateTime" start_date;
   end_ ← Py.getitem event "end";
   end_date ← Py.get end_ "date" JNull;
   end_ ← Py.get end_ "dateTime" end_date;
   description ← Py.get event "description" (JStr "");
   location ← Py.get event "location" (JStr "");
   Return (dict [("id", id); ("title", title); ("start", start);
                 ("end", end_); ("description", description);
                 ("location", location)]))%R.

(** Lines 114-126 and 261-273. *)
Definition format_events (events_result : json) : result (list json) :=
  (events ← Py.get events_result "items" (JArr []);
   events ← Py.iter events;
   for_each format_event events)%R.

(** ['date' in data and 'time' in data] *)
Definition has_date_and_time (data : json) : result bool :=
  (has_date ← Py.contains "date" data;
   if has_date : bool then Py.contains "time" data else Return false)%R.

(** The two dicts of lines 155-158 and 198-201. *)
Definition timed (data : json) : result (json * json) :=
  (date ← Py.getitem data "date";
   time ← Py.getitem data "time";
   let start_datetime := str date +:+ "T" +:+ str time +:+ ":00" in
   date ← Py.getitem data "date";
   time ← Py.getitem data "time";
   end_time ← Py.get data "end_time" time;
   let end_datetime := str date +:+ "T" +:+ str end_time +:+ ":00" in
   Return
     (dict [("dateTime", JStr start_datetime);
            ("timeZone", JStr "America/New_York")],
      dict [("dateTime", JStr end_datetime);
            ("timeZone", JStr "America/New_York")]))%R.

(** Lines 146-162: the event [create_event] inserts. *)
Definition new_event (data : json) : result json :=
  (summary ← Py.get data "title" (JStr "New Event");
   description ← Py.get data "description" (JStr "");
   location ← Py.get data "location" (JStr "");
   let event := dict [("summary", summary); ("description", description);
                      ("location", location)] in
   both ← has_date_and_time data;
   if both : bool then
     '(start, end_) ← timed data;
     event ← Py.setitem event "start" start;
     Py.setitem event "end" end_
   else
     has_date ← Py.contains "date" data;
     if has_date : bool then
       date ← Py.getitem data "date";
       event ← Py.setitem event "start" (dict [("date", date)]);
       date ← Py.getitem data "date";
       Py.setitem event "end" (dict [("date", date)])
     else Return event)%R.

(** [if k in data: event[field] = data[k]] *)
Definition overlay (k field : string) (data event : json) : result json :=
  (present ← Py.contains k data;
   if present : bool then
     v ← Py.getitem data k;
     Py.setitem event field v
   else Return event)%R.

(** Lines 189-201: the event [update_event] sends back. *)
Definition updated_event (event data : json) : result json :=
  (event ← overlay "title" "summary" data event;
   event ← overlay "description" "description" data event;
   event ← overlay "location" "location" data event;
   both ← has_date_and_time data;
   if both : bool then
     '(start, end_) ← timed data;
     event ← Py.setitem event "start" start;
     Py.setitem event "end" end_
   else Return event)%R.

(** *** The views *)

(** Lines 83-135. *)
Definition get_events_body (req : request) : M response :=
  service ← get_calendar_service;
  now ← gets today;
  let date_str := default now (args req !! "date") in
  days ← lift (match args req !! "days" with
               | Some s => int s
               | None => Return 7
               end);
  let query := default "" (args req !! "query") in
  start_date ← lift (strptime date_str);
  delta ← lift (Datetime.timedelta days);
  end_date ← lift (Datetime.add start_date delta);
  let time_min := Datetime.isoformat start_date +:+ "Z" in
  let time_max := Datetime.isoformat end_date +:+ "Z" in
  events_result ← service_events_list service
    {| calendarId := "primary";
       timeMin := Some time_min;
       timeMax := Some time_max;
       maxResults := 50;
       singleEvents := true;
       orderBy := "startTime";
       q := Py.nonempty (Some query) |};
  formatted_events ← lift (format_events events_result);
  ret (jsonify
         (dict [("success", JBool true);
                ("events", JArr formatted_events);
                ("count", JNum (Z.of_nat (length formatted_events)))])).

Definition get_events : request → M response :=
  require_api_key (λ req, try_except (get_events_body req) internal_error).

(** Lines 137-175. *)
Definition create_event_body (req : request) : M response :=
  service ← get_calendar_service;
  data ← lift (body req);
  event ← lift (new_event data);
  created_event ← service_events_insert service "primary" event;
  event_id ← lift (Py.getitem created_event "id");
  event_link ← lift (Py.get created_event "htmlLink" JNull);
  title ← lift (Py.get data "title" JNull);
  ret (jsonify
         (dict [("success", JBool true);
                ("event_id", event_id);
                ("event_link", event_link);
                ("message", JStr ("Event '" +:+ str title
                                  +:+ "' created successfully"))])).

Definition create_event : request → M response :=
  require_api_key
    (λ req, try_except (create_event_body req) internal_error).

(** Lines 177-217. *)
Definition update_event_body (event_id : string) (req : request)
    : M response :=
  service ← get_calendar_service;
  data ← lift (body req);
  event ← service_events_get service "primary" event_id;
  event ← lift (updated_event event data);
  updated ← service_events_update service "primary" event_id event;
  event_link ← lift (Py.get updated "htmlLink" JNull);
  ret (jsonify
         (dict [("success", JBool true);
                ("message", JStr "Event updated successfully");
                ("event_link", event_link)])).

Definition update_event (event_id : string) : request → M response :=
  require_api_key
    (λ req, try_except (update_event_body event_id req) internal_error).

(** Lines 219-239. *)
Definition delete_event_body (event_id : string) (req : request)
    : M response :=
  service ← get_calendar_service;
  event ← service_events_get service "primary" event_id;
  event_title ← lift (Py.get event "summary" (JStr "Untitled Event"));
  _ ← service_events_delete service "primary" event_id;
  ret (jsonify
         (dict [("success", JBool true);
                ("message", JStr ("Event '" +:+ str event_title
                                  +:+ "' deleted successfully"))])).

Definition delete_event (event_id : string) : request → M response :=
  require_api_key
    (λ req, try_except (delete_event_body event_id req) internal_error).

(** Lines 241-283. *)
Definition search_events_body (req : request) : M response :=
  service ← get_calendar_service;
  let query := default "" (args req !! "query") in
  match Py.nonempty (Some query) with
  | None => ret (error_envelope "Query parameter required" 400)
  | Some query =>
      events_result ← service_events_list service
        {| calendarId := "primary";
           timeMin := None;
           timeMax := None;
           maxResults := 25;
           singleEvents := true;
           orderBy := "startTime";
           q := Some query |};
      formatted_events ← lift (format_events events_result);
      ret (jsonify
             (dict [("success", JBool true);
                    ("events", JArr formatted_events);
                    ("count", JNum (Z.of_nat (length formatted_events)));
                    ("query", JStr query)]))
  end.

Definition search_events : request → M response :=
  require_api_key
    (λ req, try_except (search_events_body req) internal_error).

(** Lines 285-288. *)
Definition health_check : request → M response := λ _,
  ret (jsonify (dict [("status", JStr "healthy");
                      ("service", JStr "calendar-api")])).

(** The routes registered with [app.route]. *)
Inductive route : Type :=
  | GET_events
  | POST_events
  | PUT_events (event_id : string)
  | DELETE_events (event_id : string)
  | GET_events_search
  | GET_health.

Definition view (r : route) : request → M response :=
  match r with
  | GET_events => get_events
  | POST_events => create_event
  | PUT_events event_id => update_event event_id
  | DELETE_events event_id => delete_event event_id
  | GET_events_search => search_events
  | GET_health => health_check
  end.

(** *** Vocabulary of the statements *)

(** The calls made on the way from [w] to [w']. *)
Definition new_calls (w w' : world) : list call :=
  drop (length (calls w)) (calls w').

(** Calls that concern credentials and local files, as opposed to the
    calendar. *)
Definition auth_call (c : call) : bool :=
  match c with
  | EventsList _ | EventsGet _ _ | EventsInsert _ _
  | EventsUpdate _ _ _ | EventsDelete _ _ => false
  | _ => true
  end.

(** [w'] comes from [w] by authorization activity only: environment,
    clock and calendar are those of [w], and the calls made are
    [auth_call]s. *)
Definition auth_step (w w' : world) : Prop :=
  environ w' = environ w ∧ today w' = today w
  ∧ calendar w' = calendar w
  ∧ ∃ l, calls w' = calls w ++ l ∧ forallb auth_call l = true.

Definition preserves {A} (R : relation world) (m : M A) : Prop :=
  ∀ w, R w (m w).2.

(** Nothing was written to the local files between [w] and [w']. *)
Definition same_files (w w' : world) : Prop := files w' = files w.

(** The dict [m] after [if o is present: m[k] = o]. *)
Definition set_if (o : option json) (k : string) (m : gmap string json)
    : gmap string json :=
  match o with Some v => <[k := v]> m | None => m end.

(** The calls on the calendar among [l]. *)
Definition calendar_calls (l : list call) : list call :=
  filter (λ c, auth_call c = false) l.

(** The function that [require_api_key] decorates on each route. *)
Definition view_body (r : route) : request → M response :=
  match r with
  | GET_events => get_events_body
  | POST_events => create_event_body
  | PUT_events event_id => update_event_body event_id
  | DELETE_events event_id => delete_event_body event_id
  | GET_events_search => search_events_body
  | GET_health => health_check
  end.

(** Whatever [m] returns satisfies [Q]. *)
Definition returns {A} (Q : A → Prop) (m : M A) : Prop :=
  ∀ w a w', m w = (Return a, w') → Q a.

(** Calls that reach the authorization server. *)
Definition authorization_call (c : call) : bool :=
  match c with
  | Refresh | RunLocalServer => true
  | _ => false
  end.

(** The calls that reach the authorization server among [l]. *)
Definition authorization_calls (l : list call) : list call :=
  filter (λ c, authorization_call c = true) l.

(** Calls that reach the calendar. *)
Definition calendar_call (c : call) : bool := negb (auth_call c).

(** Whatever the world, [m] logs at most [n] calls that [count]
    selects, and only adds to the log. *)
Definition at_most (count : call → bool) (n : nat) {A} (m : M A) : Prop :=
  ∀ w, ∃ l, calls (m w).2 = calls w ++ l
            ∧ (length (filter (λ c, count c = true) l) ≤ n)%nat.

(** Between [w] and [w'] the environment and the clock are the same and
    no local file other than the token file has changed. *)
Definition local_step (w w' : world) : Prop :=
  environ w' = environ w ∧ today w' = today w
  ∧ ∀ path, path ≠ "token.pickle" → files w' !! path = files w !! path.

End App.

Arguments world : clear implicits.
Arguments world {L}.

(** ** An in-memory stand-in for the collaborators

    The statements below hold for every implementation of
    [Collaborators].  To run the module on concrete requests the
    interface is instantiated with a small double: credentials are a
    token, a refresh token and an expiry flag; the authorization server
    counts the tokens it has issued; the calendar is a map from event
    identifiers to events.

    The double reads plain text only: [numeral] reads one to eighteen
    ASCII digits, [iso_date] reads four, two and two ASCII digits
    between dashes, and [loads] reads the empty object and one
    authorized-user document.  What they read, the interpreter reads
    the same way; every other text is rejected. *)

Module Double.

Record credentials : Type := Creds {
  token : string;
  refresh_tok : option string;
  is_expired : bool
}.

Definition issue (n : nat) (r : option string) : credentials :=
  Creds ("token-" +:+ pretty n) r false.

Definition not_found (eid : string) : exn :=
  Exn LibraryError ("<HttpError 404 when requesting event " +:+ eid
                    +:+ ": Not Found>").

Definition lookup_event (eid : string) (cal : gmap string json)
    : result json :=
  match cal !! eid with
  | Some ev => Return ev
  | None => Raise (not_found eid)
  end.

Definition with_id (eid : string) (body : json) : json :=
  match body with
  | JObj m =>
      JObj (<["id" := JStr eid]>
              (<["htmlLink" := JStr ("https://calendar.example/" +:+ eid)]>
                 m))
  | _ => body
  end.

Definition digit (c : ascii) : option Z :=
  let n := Z.of_N (Ascii.N_of_ascii c) in
  if (48 <=? n) && (n <=? 57) then Some (n - 48) else None.

Fixpoint digits (acc : Z) (l : list ascii) : option Z :=
  match l with
  | [] => Some acc
  | c :: l' => d ← digit c; digits (10 * acc + d) l'
  end.

Definition numeral (s : string) : result Z :=
  let l := String.list_ascii_of_string s in
  match (if bool_decide (1 ≤ length l ≤ 18)%nat then digits 0 l
         else None) with
  | Some n => Return n
  | None => Raise (Exn ValueError
              ("invalid literal for int() with base 10: '" +:+ s +:+ "'"))
  end.

Definition iso_date (s : string) : result Datetime.t :=
  let mismatch : result Datetime.t :=
    Raise (Exn ValueError
      ("time data '" +:+ s +:+ "' does not match format '%Y-%m-%d'")) in
  match String.list_ascii_of_string s with
  | [y1; y2; y3; y4; s1; m1; m2; s2; d1; d2] =>
      match digits 0 [y1; y2; y3; y4], digits 0 [m1; m2],
            digits 0 [d1; d2] with
      | Some y, Some m, Some d =>
          if Ascii.eqb s1 "-" && Ascii.eqb s2 "-"
             && (1 <=? m) && (m <=? 12) && (1 <=? d) && (d <=? 31)
          then
            if y =? 0 then Raise (Exn ValueError "year 0 is out of range")
            else if Datetime.valid (Datetime.mk y m d)
            then Return (Datetime.mk y m d)
            else Raise (Exn ValueError "day is out of range for month")
          else mismatch
      | _, _, _ => mismatch
      end
  | _ => mismatch
  end.

(** A JSON string and a member of a JSON object, as text. *)
Definition quoted (s : string) : string :=
  String "034" (s +:+ String "034" "").

Definition member (k v : string) : string := quoted k +:+ ": " +:+ quoted v.

(** The document the authorization library writes for a user:
    [{"token": "t0", "refresh_token": "r0", "client_id": "app",
    "client_secret": "s3"}]. *)
Definition authorized_user : string :=
  "{" +:+ member "token" "t0" +:+ ", " +:+ member "refresh_token" "r0"
  +:+ ", " +:+ member "client_id" "app" +:+ ", "
  +:+ member "client_secret" "s3" +:+ "}".

Definition loads (s : string) : result json :=
  if String.eqb s "{}" then Return (JObj ∅)
  else if String.eqb s authorized_user then
    Return (JObj (list_to_map
      [("token", JStr "t0"); ("refresh_token", JStr "r0");
       ("client_id", JStr "app"); ("client_secret", JStr "s3")]))
  else Raise (Exn ValueError
         "Expecting property name enclosed in double quotes").

(** [Credentials.from_authorized_user_info]: the refresh token, the
    client id and the client secret are required. *)
Definition user_info (info : json) : result credentials :=
  match info with
  | JObj m =>
      match m !! "token", m !! "refresh_token", m !! "client_id",
            m !! "client_secret" with
      | Some (JStr t), Some (JStr r), Some _, Some _ =>
          Return (Creds t (Some r) false)
      | _, _, _, _ =>
          Raise (Exn ValueError
            "Authorized user info was not in the expected format")
      end
  | _ => Raise (Exn ValueError
           "Authorized user info was not in the expected format")
  end.

#[export] Instance lib : Collaborators := {|
  Credentials := credentials;
  Flow := string;
  Service := option credentials;
  AuthServer := nat;
  Calendar := gmap string json;
  repr := λ v, match v with JArr [] => "[]" | JArr _ => "[...]"
               | _ => "{...}" end;
  int := numeral;
  strptime := iso_date;
  json_loads := loads;
  from_authorized_user_info := λ info _, user_info info;
  valid := λ c, negb (is_expired c);
  expired := is_expired;
  refresh_token := refresh_tok;
  refresh := λ c n, (Return (issue n (refresh_tok c)), S n);
  from_client_config := λ _ _, Return "inline";
  from_client_secrets_file := λ f _,
    match f with
    | Text s => Return s
    | Pickle _ => Raise (Exn ValueError "Expecting value")
    end;
  run_local_server := λ _ n, (Return (issue n (Some "r")), S n);
  build := λ c, Return c;
  events_list := λ _ _ cal,
    Return (JObj {["items" := JArr (map_to_list cal).*2]});
  events_get := λ _ _ eid cal, lookup_event eid cal;
  events_insert := λ _ _ body cal,
    let eid := "evt" +:+ pretty (size cal) in
    (Return (with_id eid body), <[eid := with_id eid body]> cal);
  events_update := λ _ _ eid body cal,
    match cal !! eid with
    | Some _ => (Return body, <[eid := body]> cal)
    | None => (Raise (not_found eid), cal)
    end;
  events_delete := λ _ _ eid cal,
    match cal !! eid with
    | Some _ => (Return (JStr ""), delete eid cal)
    | None => (Raise (not_found eid), cal)
    end
|}.

Definition fresh : credentials := Creds "t0" (Some "r0") false.
Definition stale : credentials := Creds "t0" (Some "r0") true.

Definition standup : json :=
  JObj (list_to_map
    [("id", JStr "e1"); ("summary", JStr "Standup");
     ("description", JStr "Daily sync"); ("location", JStr "Room 1");
     ("start", JObj (list_to_map
        [("dateTime", JStr "2025-01-10T09:00:00-05:00");
         ("timeZone", JStr "America/New_York")]));
     ("end", JObj (list_to_map
        [("dateTime", JStr "2025-01-10T09:15:00-05:00");
         ("timeZone", JStr "America/New_York")]))]).

Definition holiday : json :=
  JObj (list_to_map
    [("id", JStr "e2");
     ("start", JObj {["date" := JStr "2025-01-20"]});
     ("end", JObj {["date" := JStr "2025-01-21"]})]).

(** A development machine: a persisted token, the key ["k"], two
    events in the calendar. *)
Definition dev (c : credentials) : world :=
  {| environ := {["API_KEY" := "k"]};
     files := {["token.pickle" := Pickle c]};
     today := "2025-01-10";
     auth_server := 0%nat;
     calendar := {["e1" := standup; "e2" := holiday]};
     calls := [] |}.

(** A deployment whose inline token is not a JSON document, next to a
    token file that holds a good credential. *)
Definition misconfigured : world :=
  {| environ := {["GOOGLE_TOKEN" := "{not json"]};
     files := {["token.pickle" := Pickle fresh]};
     today := "2025-01-10";
     auth_server := 0%nat;
     calendar := ∅;
     calls := [] |}.

(** A development machine before its first authorization: client
    secrets and no token. *)
Definition first_run : world :=
  {| environ := ∅;
     files := {["credentials.json" := Text "client-secrets"]};
     today := "2025-01-10";
     auth_server := 0%nat;
     calendar := ∅;
     calls := [] |}.

(** A development machine whose calendar holds an event without [id]
    next to the stand-up. *)
Definition damaged : world :=
  {| environ := {["API_KEY" := "k"]};
     files := {["token.pickle" := Pickle fresh]};
     today := "2025-01-10";
     auth_server := 0%nat;
     calendar := {["e1" := standup; "e9" := JObj {["summary" := JStr "?"]}]};
     calls := [] |}.

(** A deployment whose inline token is an authorized-user document,
    next to a token file that holds an expired credential. *)
Definition deployed : world :=
  {| environ := {["API_KEY" := "k"; "GOOGLE_TOKEN" := authorized_user]};
     files := {["token.pickle" := Pickle stale]};
     today := "2025-01-10";
     auth_server := 0%nat;
     calendar := ∅;
     calls := [] |}.

(** An all-day event whose summary the provider gives as [null]. *)
Definition nameless : json :=
  JObj (list_to_map
    [("id", JStr "e5"); ("summary", JNull);
     ("start", JObj {["date" := JStr "2025-01-12"]});
     ("end", JObj {["date" := JStr "2025-01-13"]})]).

(** A development machine whose calendar holds that event only. *)
Definition unnamed : world :=
  {| environ := {["API_KEY" := "k"]};
     files := {["token.pickle" := Pickle fresh]};
     today := "2025-01-10";
     auth_server := 0%nat;
     calendar := {["e5" := nameless]};
     calls := [] |}.

(** A development machine with an empty calendar. *)
Definition quiet : world :=
  {| environ := {["API_KEY" := "k"]};
     files := {["token.pickle" := Pickle fresh]};
     today := "2025-01-10";
     auth_server := 0%nat;
     calendar := ∅;
     calls := [] |}.

(** A machine on which nothing is configured. *)
Definition bare : world :=
  {| environ := ∅; files := ∅; today := "2025-01-10";
     auth_server := 0%nat; calendar := ∅; calls := [] |}.

Definition keyed (k : string) (a : gmap string string) (b : result json)
    : request :=
  mk_request {["X-API-Key" := k]} a b.

Definition no_body : result json :=
  Raise (Exn LibraryError "415 Unsupported Media Type").

End Double.

(** ** The double with a provider that fails

    The same double, except that the authorization server rejects every
    refresh and the calendar answers an insert with an empty document. *)

Module Faulty.

Definition lib : Collaborators := {|
  Credentials := Double.credentials;
  Flow := string;
  Service := option Double.credentials;
  AuthServer := nat;
  Calendar := gmap string json;
  repr := @repr Double.lib;
  int := @int Double.lib;
  strptime := @strptime Double.lib;
  json_loads := @json_loads Double.lib;
  from_authorized_user_info := @from_authorized_user_info Double.lib;
  valid := @valid Double.lib;
  expired := @expired Double.lib;
  refresh_token := @refresh_token Double.lib;
  refresh := λ _ n,
    (Raise (Exn LibraryError
              "invalid_grant: Token has been expired or revoked."), n);
  from_client_config := @from_client_config Double.lib;
  from_client_secrets_file := @from_client_secrets_file Double.lib;
  run_local_server := @run_local_server Double.lib;
  build := @build Double.lib;
  events_list := @events_list Double.lib;
  events_get := @events_get Double.lib;
  events_insert := λ _ _ body cal,
    (Return (JObj ∅), <["evt" +:+ pretty (size cal) := body]> cal);
  events_update := @events_update Double.lib;
  events_delete := @events_delete Double.lib
|}.

Definition dev (c : Double.credentials) : @world lib :=
  @World lib {["API_KEY" := "k"]}
    ({["token.pickle" := Pickle c]} : gmap string (file Double.credentials))
    "2025-01-10" 0%nat (∅ : gmap string json) [].

End Faulty.


(** * Properties *)

(** ** Ordinals and dates

    [ord2ymd] inverts [ymd2ord]: the year comes from the 400, 100, 4 and
    1 year cycles, the month and day from the tables. *)

Module DatetimeFacts.
Import Datetime.

Lemma month_day_table (leap : bool) (n : Z) :
  0 ≤ n < 365 + leap_day leap → month_day_ok leap n = true.
Proof.
  intros Hn.
  assert (Hall : forallb (λ n, month_day_ok true n && month_day_ok false n)
                   (seqZ 0 365) = true) by (vm_compute; reflexivity).
  rewrite forallb_forall in Hall.
  destruct (decide (n = 365)) as [->|Hne].
  - destruct leap; [by vm_compute | simpl in Hn; lia].
  - assert (Hin : n ∈ seqZ 0 365).
    { apply elem_of_seqZ. destruct leap; simpl in Hn; lia. }
    apply list_elem_of_In, Hall, andb_prop in Hin.
    destruct leap; tauto.
Qed.

Lemma days_before_year_split (q n100 n4 n1 : Z) :
  0 ≤ n100 ≤ 3 → 0 ≤ n4 ≤ 24 → 0 ≤ n1 ≤ 3 →
  days_before_year (q * 400 + 1 + n100 * 100 + n4 * 4 + n1)
  = 146097 * q + 36524 * n100 + 1461 * n4 + 365 * n1.
Proof.
  intros. unfold days_before_year. cbv zeta.
  replace (q * 400 + 1 + n100 * 100 + n4 * 4 + n1 - 1)
    with (q * 400 + n100 * 100 + n4 * 4 + n1) by lia.
  Z.div_mod_to_equations. lia.
Qed.

Lemma is_leap_split (q n100 n4 n1 : Z) :
  0 ≤ n100 ≤ 3 → 0 ≤ n4 ≤ 24 → 0 ≤ n1 ≤ 3 →
  is_leap (q * 400 + 1 + n100 * 100 + n4 * 4 + n1)
  = (n1 =? 3) && (negb (n4 =? 24) || (n100 =? 3)).
Proof.
  intros. unfold is_leap.
  set (y := q * 400 + 1 + n100 * 100 + n4 * 4 + n1).
  assert (H4 : y mod 4 = 0 ↔ n1 = 3)
    by (subst y; Z.div_mod_to_equations; lia).
  assert (H100 : y mod 100 = 0 ↔ n1 = 3 ∧ n4 = 24)
    by (subst y; Z.div_mod_to_equations; lia).
  assert (H400 : y mod 400 = 0 ↔ n1 = 3 ∧ n4 = 24 ∧ n100 = 3)
    by (subst y; Z.div_mod_to_equations; lia).
  clearbody y.
  destruct (Z.eqb_spec (y mod 4) 0), (Z.eqb_spec (y mod 100) 0),
    (Z.eqb_spec (y mod 400) 0), (Z.eqb_spec n1 3), (Z.eqb_spec n4 24),
    (Z.eqb_spec n100 3); simpl; try reflexivity; exfalso; lia.
Qed.

(** Adding days to a date moves its ordinal by exactly that many days. *)
Lemma toordinal_ord2ymd (n : Z) : 1 ≤ n → toordinal (ord2ymd n) = n.
Proof.
  intros Hn. unfold ord2ymd.
  change DI400Y with 146097. change DI100Y with 36524.
  change DI4Y with 1461.
  set (n0 := n - 1).
  set (q := n0 / 146097). set (r400 := n0 mod 146097).
  set (n100 := r400 / 36524). set (r100 := r400 mod 36524).
  set (n4 := r100 / 1461). set (r4 := r100 mod 1461).
  set (n1 := r4 / 365). set (r1 := r4 mod 365).
  cbv zeta.
  assert (H400 : n0 = 146097 * q + r400 ∧ 0 ≤ r400 < 146097)
    by (subst q r400; Z.div_mod_to_equations; lia).
  assert (H100 : r400 = 36524 * n100 + r100 ∧ 0 ≤ r100 < 36524)
    by (subst n100 r100; Z.div_mod_to_equations; lia).
  assert (H4 : r100 = 1461 * n4 + r4 ∧ 0 ≤ r4 < 1461)
    by (subst n4 r4; Z.div_mod_to_equations; lia).
  assert (H1 : r4 = 365 * n1 + r1 ∧ 0 ≤ r1 < 365)
    by (subst n1 r1; Z.div_mod_to_equations; lia).
  clearbody q r400 n100 r100 n4 r4 n1 r1.
  assert (Hn0 : n = n0 + 1) by (subst n0; lia). clearbody n0.
  destruct ((n1 =? 4) || (n100 =? 4)) eqn:Hedge.
  - (* the last day of a leap year *)
    unfold toordinal, ymd2ord, days_before_month. simpl.
    apply orb_true_iff in Hedge as [?%Z.eqb_eq | ?%Z.eqb_eq].
    + assert (r1 = 0 ∧ 0 ≤ n4 ≤ 23 ∧ 0 ≤ n100 ≤ 3) as (-> & ? & ?) by lia.
      subst n1.
      replace (q * 400 + 1 + n100 * 100 + n4 * 4 + 4 - 1)
        with (q * 400 + 1 + n100 * 100 + n4 * 4 + 3) by lia.
      rewrite is_leap_split, days_before_year_split by lia.
      simpl. destruct (Z.eqb_spec n4 24); [lia | simpl; lia].
    + assert (r100 = 0 ∧ n4 = 0 ∧ r4 = 0 ∧ n1 = 0 ∧ r1 = 0)
        as (-> & -> & -> & -> & ->) by lia.
      subst n100.
      replace (q * 400 + 1 + 4 * 100 + 0 * 4 + 0 - 1)
        with (q * 400 + 1 + 3 * 100 + 24 * 4 + 3) by lia.
      rewrite is_leap_split, days_before_year_split by lia.
      simpl. lia.
  - apply orb_false_iff in Hedge as [?%Z.eqb_neq ?%Z.eqb_neq].
    assert (0 ≤ n100 ≤ 3 ∧ 0 ≤ n4 ≤ 24 ∧ 0 ≤ n1 ≤ 3) as (? & ? & ?) by lia.
    rewrite <- (is_leap_split q n100 n4 n1) by done.
    set (y := q * 400 + 1 + n100 * 100 + n4 * 4 + n1).
    pose proof (month_day_table (is_leap y) r1) as Htab.
    pose proof (days_before_year_split q n100 n4 n1) as Hy. fold y in Hy.
    unfold month_day_ok in Htab.
    destruct (month_day (is_leap y) r1) as [m d].
    unfold toordinal, ymd2ord, days_before_month. cbn [year month day].
    rewrite Hy by done.
    assert (Hr1 : 0 ≤ r1 < 365 + leap_day (is_leap y))
      by (unfold leap_day; destruct (is_leap y); lia).
    apply Htab in Hr1. repeat (apply andb_prop in Hr1 as [Hr1 ?]).
    unfold leap_day in *.
    destruct ((2 <? m) && is_leap y); lia.
Qed.

Lemma add_Return (d : t) (n : Z) :
  0 < toordinal d + n ≤ MAXORDINAL →
  add d n = Return (ord2ymd (toordinal d + n)).
Proof.
  intros [??]. unfold add. cbv zeta.
  destruct (Z.ltb_spec 0 (toordinal d + n)); [|lia].
  destruct (Z.leb_spec (toordinal d + n) MAXORDINAL); [done | lia].
Qed.

Lemma add_Raise (d : t) (n : Z) :
  ¬ (0 < toordinal d + n ≤ MAXORDINAL) →
  add d n = Raise (Exn OverflowError "date value out of range").
Proof.
  intros Hr. unfold add. cbv zeta.
  destruct (Z.ltb_spec 0 (toordinal d + n)); [|done].
  destruct (Z.leb_spec (toordinal d + n) MAXORDINAL); [lia | done].
Qed.

Lemma timedelta_Return (n : Z) :
  -999999999 ≤ n ≤ 999999999 → timedelta n = Return n.
Proof.
  intros [??]. unfold timedelta.
  destruct (Z.leb_spec (-2147483648) n); [|lia].
  destruct (Z.leb_spec n 2147483647); [|lia].
  destruct (Z.leb_spec (-999999999) n); [|lia].
  destruct (Z.leb_spec n 999999999); [done | lia].
Qed.

(** When the sum is not the ordinal of a date, building the number of
    days or adding it raises [OverflowError]. *)
Lemma add_days_Raise (d : t) (n : Z) :
  ¬ (0 < toordinal d + n ≤ MAXORDINAL) →
  ∃ msg, (delta ← timedelta n; add d delta)%R = Raise (Exn OverflowError msg).
Proof.
  intros Hr. unfold timedelta.
  destruct ((-2147483648 <=? n) && (n <=? 2147483647)); [|simpl; eauto].
  destruct ((-999999999 <=? n) && (n <=? 999999999)); simpl; [|eauto].
  rewrite add_Raise by done. eauto.
Qed.

Lemma days_before_year_succ (y : Z) :
  days_before_year (y + 1) = days_before_year y + 365 + leap_day (is_leap y).
Proof.
  unfold days_before_year, is_leap, leap_day. cbv zeta.
  replace (y + 1 - 1) with (y - 1 + 1) by lia.
  set (x := y - 1). replace y with (x + 1) by (subst x; lia). clearbody x.
  destruct (Z.eqb_spec ((x + 1) mod 4) 0), (Z.eqb_spec ((x + 1) mod 100) 0),
    (Z.eqb_spec ((x + 1) mod 400) 0); simpl;
    Z.div_mod_to_equations; lia.
Qed.

Lemma days_before_year_mono (y y' : Z) :
  y ≤ y' → days_before_year y ≤ days_before_year y'.
Proof.
  intros Hle. unfold days_before_year. cbv zeta.
  Z.div_mod_to_equations. lia.
Qed.

Lemma toordinal_valid (d : t) :
  valid d = true → 1 ≤ toordinal d ≤ MAXORDINAL.
Proof.
  destruct d as [y m dd]. unfold valid, toordinal, ymd2ord. cbn [year month day].
  rewrite !andb_true_iff, !Z.leb_le. intros [[[[[Hy1 Hy2] Hm1] Hm2] Hd1] Hd2].
  pose proof (days_before_year_mono 1 y Hy1) as Hlo.
  pose proof (days_before_year_mono (y + 1) 10000 ltac:(lia)) as Hhi.
  rewrite days_before_year_succ in Hhi.
  change (days_before_year 1) with 0 in Hlo.
  change (days_before_year 10000) with 3652059 in Hhi.
  change MAXORDINAL with 3652059.
  unfold days_before_month, days_in_month, leap_day in *.
  assert (Hm : m = 1 ∨ m = 2 ∨ m = 3 ∨ m = 4 ∨ m = 5 ∨ m = 6 ∨ m = 7 ∨ m = 8
               ∨ m = 9 ∨ m = 10 ∨ m = 11 ∨ m = 12) by lia.
  destruct (is_leap y);
    repeat (destruct Hm as [-> | Hm]; [simpl in *; lia |]); subst m; simpl in *; lia.
Qed.

End DatetimeFacts.

(** ** The monad *)

Section Monad.
Context `{L : Collaborators}.

Lemma bind_Return {A B} (m : M A) (k : A → M B) w a w' :
  m w = (Return a, w') → bind m k w = k a w'.
Proof. intros H. unfold bind. by rewrite H. Qed.

Lemma bind_Raise {A B} (m : M A) (k : A → M B) w e w' :
  m w = (Raise e, w') → bind m k w = (Raise e, w').
Proof. intros H. unfold bind. by rewrite H. Qed.

Lemma try_except_Return {A} (m : M A) h w a w' :
  m w = (Return a, w') → try_except m h w = (Return a, w').
Proof. intros H. unfold try_except. by rewrite H. Qed.

Lemma try_except_Raise {A} (m : M A) h w e w' :
  m w = (Raise e, w') → try_except m h w = h e w'.
Proof. intros H. unfold try_except. by rewrite H. Qed.

Lemma record_record w l1 l2 : record (record w l1) l2 = record w (l1 ++ l2).
Proof. unfold record. simpl. by rewrite app_assoc. Qed.

Lemma new_calls_record w l : new_calls w (record w l) = l.
Proof.
  unfold new_calls, record. simpl. by rewrite drop_app_length.
Qed.

(** *** Frame conditions *)

#[export] Instance auth_step_preorder : PreOrder auth_step.
Proof.
  split.
  - intros w. repeat split. exists []. by rewrite app_nil_r.
  - intros w1 w2 w3 (He1 & Ht1 & Hc1 & l1 & Hl1 & Ha1)
      (He2 & Ht2 & Hc2 & l2 & Hl2 & Ha2).
    repeat split; [congruence..|].
    exists (l1 ++ l2). split.
    + by rewrite Hl2, Hl1, app_assoc.
    + rewrite forallb_app. by rewrite Ha1, Ha2.
Qed.

Section Preserves.
Context (R : relation world) `{!PreOrder R}.

Lemma preserves_ret {A} (a : A) : preserves R (ret a).
Proof. intros w. simpl. reflexivity. Qed.

Lemma preserves_gets {A} (f : world → A) : preserves R (gets f).
Proof. intros w. simpl. reflexivity. Qed.

Lemma preserves_lift {A} (r : result A) : preserves R (lift r).
Proof. intros w. simpl. reflexivity. Qed.

Lemma preserves_raise {A} (e : exn) : preserves R (raise (A := A) e).
Proof. apply preserves_lift. Qed.

Lemma preserves_bind {A B} (m : M A) (k : A → M B) :
  preserves R m → (∀ a, preserves R (k a)) → preserves R (bind m k).
Proof.
  intros Hm Hk w. unfold bind. specialize (Hm w).
  destruct (m w) as [[a|e] w']; simpl in *; [|done].
  etrans; [done | apply Hk].
Qed.

Lemma preserves_try_except {A} (m : M A) (h : exn → M A) :
  preserves R m → (∀ e, preserves R (h e)) → preserves R (try_except m h).
Proof.
  intros Hm Hh w. unfold try_except. specialize (Hm w).
  destruct (m w) as [[a|e] w']; simpl in *; [done|].
  etrans; [done | apply Hh].
Qed.
End Preserves.

Lemma auth_step_log c : auth_call c = true → preserves auth_step (log c).
Proof.
  intros Hc w. repeat split. exists [c]. split; [done|]. simpl. by rewrite Hc.
Qed.

Lemma auth_step_set_file p f : preserves auth_step (set_file p f).
Proof. intros w. repeat split. exists []. simpl. by rewrite app_nil_r. Qed.

Lemma auth_step_on_auth_server {A}
    (f : AuthServer → result A * AuthServer) :
  preserves auth_step (on_auth_server f).
Proof.
  intros w. unfold on_auth_server. destruct (f (auth_server w)) as [r a].
  repeat split. exists []. simpl. by rewrite app_nil_r.
Qed.

Ltac preserves_auth :=
  repeat first
    [ apply preserves_bind; [apply _ | |intros ?]
    | apply preserves_try_except; [apply _ | |intros ?]
    | apply preserves_ret; apply _
    | apply preserves_gets; apply _
    | apply preserves_lift; apply _
    | apply preserves_raise; apply _
    | apply auth_step_log; reflexivity
    | apply auth_step_set_file
    | apply auth_step_on_auth_server
    | match goal with |- preserves _ (match ?x with _ => _ end) => destruct x end
    | match goal with |- preserves _ (if ?x then _ else _) => destruct x end ].

Lemma auth_step_get_calendar_service :
  preserves auth_step get_calendar_service.
Proof.
  unfold get_calendar_service, load_credentials, authorize, load_flow,
    service_build, creds_refresh, flow_run_local_server, pickle_dump,
    pickle_load, open_read, path_exists, print.
  preserves_auth.
Qed.
End Monad.

(** ** The API key gate *)

Section Gate.
Context `{L : Collaborators}.

Lemma require_api_key_reject (f : request → M response) req w :
  headers req !! "X-API-Key" ≠ Some (API_KEY w) →
  require_api_key f req w
  = (Return (error_envelope "Invalid or missing API key" 401), w).
Proof.
  intros Hkey. unfold require_api_key, bind, gets.
  by rewrite bool_decide_true.
Qed.

Lemma require_api_key_accept (f : request → M response) req w :
  headers req !! "X-API-Key" = Some (API_KEY w) →
  require_api_key f req w = f req w.
Proof.
  intros Hkey. unfold require_api_key, bind, gets.
  rewrite bool_decide_false; [done | by intros []].
Qed.

(** C1.  On every route other than [GET /health], a request whose
    [X-API-Key] header is absent or is not the configured key is answered
    with status 401 and the body [{success: false, error: "Invalid or
    missing API key"}]; the world is left as it was, so the view did not
    run: no credential was sought and no collaborator was called. *)
Theorem C1_api_key_gate (r : route) (req : request) (w : world) :
  r ≠ GET_health →
  headers req !! "X-API-Key" ≠ Some (API_KEY w) →
  view r req w
  = (Return (dict [("success", JBool false);
                   ("error", JStr "Invalid or missing API key")], 401), w)
  ∧ new_calls w (view r req w).2 = [].
Proof.
  intros Hr Hkey.
  assert (view r req w
          = (Return (error_envelope "Invalid or missing API key" 401), w))
    as -> by (destruct r; try done; by apply require_api_key_reject).
  split; [done|]. unfold new_calls. simpl. by rewrite drop_all.
Qed.

End Gate.

(** A deletion request with a wrong key on the development machine. *)
Lemma C1_api_key_gate_witness :
  DELETE_events "e1" ≠ GET_health
  ∧ headers (Double.keyed "guess" ∅ Double.no_body) !! "X-API-Key"
    ≠ Some (API_KEY (Double.dev Double.fresh))
  ∧ (view (DELETE_events "e1") (Double.keyed "guess" ∅ Double.no_body)
       (Double.dev Double.fresh)).1
    = Return (dict [("success", JBool false);
                    ("error", JStr "Invalid or missing API key")], 401).
Proof.
  assert (H1 : DELETE_events "e1" ≠ GET_health) by done.
  assert (H2 : headers (Double.keyed "guess" ∅ Double.no_body) !! "X-API-Key"
               ≠ Some (API_KEY (Double.dev Double.fresh))) by (by vm_compute).
  split; [exact H1|]. split; [exact H2|].
  by rewrite (proj1 (C1_api_key_gate _ _ _ H1 H2)).
Defined.

(** ** The views *)

Section Views.
Context `{L : Collaborators}.

Lemma auth_step_calendar_calls w w' :
  auth_step w w' → calendar_calls (new_calls w w') = [].
Proof.
  intros (_ & _ & _ & l & Hl & Hauth). unfold new_calls, calendar_calls.
  rewrite Hl, drop_app_length. clear Hl.
  induction l as [|c l IH]; [done|]. simpl in Hauth.
  apply andb_prop in Hauth as [Hc Hauth].
  rewrite filter_cons_False by (by rewrite Hc). auto.
Qed.

(** After the service has been obtained in [w1], the calls [l]. *)
Lemma calendar_calls_after w w1 w' l :
  auth_step w w1 → calls w' = calls w1 ++ l →
  calendar_calls (new_calls w w') = calendar_calls l.
Proof.
  intros Hstep Hw'. pose proof (auth_step_calendar_calls _ _ Hstep) as Hnil.
  destruct Hstep as (_ & _ & _ & l0 & Hl & _).
  unfold new_calls, calendar_calls in *.
  rewrite Hl, drop_app_length in Hnil.
  by rewrite Hw', Hl, <- app_assoc, drop_app_length, filter_app, Hnil.
Qed.

Lemma get_calendar_service_frame w r w' :
  get_calendar_service w = (r, w') → auth_step w w'.
Proof.
  intros H. pose proof (auth_step_get_calendar_service w) as Hs.
  by rewrite H in Hs.
Qed.

Lemma nonempty_default (o : option string) :
  Py.nonempty (Some (default "" o)) = Py.nonempty o.
Proof. by destruct o. Qed.

(** *** Search *)

(** C2, as amended.  A search request with a valid key and a missing or
    empty [query] is answered with status 400 and [{success: false,
    error: "Query parameter required"}] whatever the other parameters and
    whatever the calendar holds, once [get_calendar_service] has returned
    a service; when [get_calendar_service] raises, the answer is status
    500 with the text of the exception.  In both cases no call is made on
    the calendar. *)
Theorem C2_search_requires_query (req : request) (w : world) :
  headers req !! "X-API-Key" = Some (API_KEY w) →
  Py.nonempty (args req !! "query") = None →
  match get_calendar_service w with
  | (Return _, w') =>
      search_events req w
      = (Return (dict [("success", JBool false);
                       ("error", JStr "Query parameter required")], 400), w')
  | (Raise e, w') =>
      search_events req w
      = (Return (dict [("success", JBool false);
                       ("error", JStr (exn_str e))], 500), w')
  end
  ∧ calendar_calls (new_calls w (search_events req w).2) = [].
Proof.
  intros Hkey Hq. unfold search_events.
  rewrite require_api_key_accept by done.
  unfold try_except, search_events_body, bind.
  rewrite nonempty_default, Hq.
  pose proof (auth_step_get_calendar_service w) as Hs.
  destruct (get_calendar_service w) as [[svc|e] w']; simpl in *;
    (split; [done | by apply auth_step_calendar_calls]).
Qed.

(** *** Delete *)


(** *** Update *)

Lemma updated_event_eq (ev d : gmap string json) :
  updated_event (JObj ev) (JObj d)
  = Return (JObj
      (let ev3 := set_if (d !! "location") "location"
                    (set_if (d !! "description") "description"
                       (set_if (d !! "title") "summary" ev)) in
       match d !! "date", d !! "time" with
       | Some date, Some time =>
           <["end" := dict [("dateTime", JStr (str date +:+ "T"
                                +:+ str (default time (d !! "end_time"))
                                +:+ ":00"));
                            ("timeZone", JStr "America/New_York")]]>
             (<["start" := dict [("dateTime", JStr (str date +:+ "T"
                                    +:+ str time +:+ ":00"));
                                 ("timeZone", JStr "America/New_York")]]>
                ev3)
       | _, _ => ev3
       end)).
Proof.
  unfold updated_event, overlay, has_date_and_time, timed, set_if. simpl.
  by destruct (d !! "title"), (d !! "description"), (d !! "location"),
    (d !! "date"), (d !! "time").
Qed.

Lemma set_if_lookup o k m k' :
  set_if o k m !! k'
  = if decide (k = k')
    then match o with Some v => Some v | None => m !! k' end
    else m !! k'.
Proof. unfold set_if. destruct o; case_decide; by simplify_map_eq. Qed.

Lemma update_event_sends (event_id : string) (req : request) (w w1 : world)
    (service : Service) (data event event' : json) :
  headers req !! "X-API-Key" = Some (API_KEY w) →
  get_calendar_service w = (Return service, w1) →
  body req = Return data →
  events_get service "primary" event_id (calendar w) = Return event →
  updated_event event data = Return event' →
  calendar_calls (new_calls w (update_event event_id req w).2)
  = [EventsGet "primary" event_id; EventsUpdate "primary" event_id event'].
Proof.
  intros Hkey Hsvc Hbody Hget Hup.
  pose proof (get_calendar_service_frame _ _ _ Hsvc) as Hstep.
  assert (Hcal : calendar w1 = calendar w) by apply Hstep.
  unfold update_event. rewrite require_api_key_accept by done.
  unfold try_except, update_event_body.
  rewrite (bind_Return _ _ _ _ _ Hsvc).
  unfold service_events_get, service_events_update, bind, lift, log, gets,
    on_calendar, ret, internal_error. rewrite Hbody. simpl.
  rewrite Hcal, Hget, Hup. simpl.
  destruct (events_update _ _ _ _ _) as [[updated|e] cal]; simpl;
    [destruct (Py.get updated "htmlLink" JNull); simpl|];
    (rewrite (calendar_calls_after w w1 _
                [EventsGet "primary" event_id;
                 EventsUpdate "primary" event_id event'] Hstep)
       by (simpl; by rewrite <- ?app_assoc));
    reflexivity.
Qed.

(** C4.  For a fetched event [ev] and a body [d], [update_event] sends
    back an event [ev'] in which [summary], [description] and [location]
    are those of the body where the body has [title], [description],
    [location], and those of [ev] otherwise; [start] and [end] are
    rebuilt when the body has both [date] and [time] and are those of
    [ev] otherwise; every other key is that of [ev].  With the body
    [{location: v}] the event sent back is [ev] with [location] replaced.
    The view fetches the event and sends [ev'] in its update call. *)
Theorem C4_update_overlays_present_fields :
  (∀ ev d : gmap string json,
     ∃ ev', updated_event (JObj ev) (JObj d) = Return (JObj ev')
     ∧ ev' !! "summary"
       = match d !! "title" with
         | Some v => Some v | None => ev !! "summary" end
     ∧ ev' !! "description"
       = match d !! "description" with
         | Some v => Some v | None => ev !! "description" end
     ∧ ev' !! "location"
       = match d !! "location" with
         | Some v => Some v | None => ev !! "location" end
     ∧ (∀ date time, d !! "date" = Some date → d !! "time" = Some time →
          ev' !! "start"
          = Some (dict [("dateTime", JStr (str date +:+ "T" +:+ str time
                                           +:+ ":00"));
                        ("timeZone", JStr "America/New_York")])
          ∧ ev' !! "end"
            = Some (dict [("dateTime", JStr (str date +:+ "T"
                               +:+ str (default time (d !! "end_time"))
                               +:+ ":00"));
                          ("timeZone", JStr "America/New_York")]))
     ∧ (d !! "date" = None ∨ d !! "time" = None →
          ev' !! "start" = ev !! "start" ∧ ev' !! "end" = ev !! "end")
     ∧ (∀ k, k ∉ ["summary"; "description"; "location"; "start"; "end"] →
          ev' !! k = ev !! k))
  ∧ (∀ (ev : gmap string json) (v : json),
       updated_event (JObj ev) (JObj {["location" := v]})
       = Return (JObj (<["location" := v]> ev)))
  ∧ (∀ event_id req w w1 service data event event',
       headers req !! "X-API-Key" = Some (API_KEY w) →
       get_calendar_service w = (Return service, w1) →
       body req = Return data →
       events_get service "primary" event_id (calendar w) = Return event →
       updated_event event data = Return event' →
       calendar_calls (new_calls w (update_event event_id req w).2)
       = [EventsGet "primary" event_id;
          EventsUpdate "primary" event_id event']).
Proof.
  split; [|split].
  - intros ev d. eexists. split; [apply updated_event_eq|]. cbv zeta.
    split; [|split; [|split; [|split; [|split]]]].
    + destruct (d !! "date"), (d !! "time");
        rewrite ?lookup_insert_ne by done; by rewrite !set_if_lookup.
    + destruct (d !! "date"), (d !! "time");
        rewrite ?lookup_insert_ne by done; by rewrite !set_if_lookup.
    + destruct (d !! "date"), (d !! "time");
        rewrite ?lookup_insert_ne by done; by rewrite !set_if_lookup.
    + intros date time -> ->. split.
      * rewrite lookup_insert_ne by done. by rewrite lookup_insert_eq.
      * by rewrite lookup_insert_eq.
    + intros Hnone.
      destruct (d !! "date"), (d !! "time");
        try (by destruct Hnone); by rewrite !set_if_lookup.
    + intros k Hk. rewrite !not_elem_of_cons in Hk.
      destruct Hk as (? & ? & ? & ? & ? & _).
      destruct (d !! "date"), (d !! "time");
        rewrite ?lookup_insert_ne by done; rewrite !set_if_lookup;
        by repeat case_decide.
  - intros ev v. by rewrite updated_event_eq.
  - apply update_event_sends.
Qed.

(** *** Create *)

Lemma new_event_eq (d : gmap string json) :
  new_event (JObj d)
  = Return (JObj
      (let event : gmap string json :=
         list_to_map
           [("summary", default (JStr "New Event") (d !! "title"));
            ("description", default (JStr "") (d !! "description"));
            ("location", default (JStr "") (d !! "location"))] in
       match d !! "date", d !! "time" with
       | Some date, Some time =>
           <["end" := dict [("dateTime", JStr (str date +:+ "T"
                                +:+ str (default time (d !! "end_time"))
                                +:+ ":00"));
                            ("timeZone", JStr "America/New_York")]]>
             (<["start" := dict [("dateTime", JStr (str date +:+ "T"
                                    +:+ str time +:+ ":00"));
                                 ("timeZone", JStr "America/New_York")]]>
                event)
       | Some date, None =>
           <["end" := dict [("date", date)]]>
             (<["start" := dict [("date", date)]]> event)
       | None, _ => event
       end)).
Proof.
  unfold new_event, has_date_and_time, timed. simpl.
  by destruct (d !! "date"), (d !! "time").
Qed.

Lemma create_event_inserts (req : request) (w w1 : world)
    (service : Service) (data event : json) :
  headers req !! "X-API-Key" = Some (API_KEY w) →
  get_calendar_service w = (Return service, w1) →
  body req = Return data →
  new_event data = Return event →
  calendar_calls (new_calls w (create_event req w).2)
  = [EventsInsert "primary" event].
Proof.
  intros Hkey Hsvc Hbody Hev.
  pose proof (get_calendar_service_frame _ _ _ Hsvc) as Hstep.
  unfold create_event. rewrite require_api_key_accept by done.
  unfold try_except, create_event_body.
  rewrite (bind_Return _ _ _ _ _ Hsvc).
  unfold service_events_insert, bind, lift, log, on_calendar, ret,
    internal_error. rewrite Hbody, Hev. simpl.
  destruct (events_insert _ _ _ _) as [[created|e] cal]; simpl;
    [destruct (Py.getitem created "id"); simpl;
     [destruct (Py.get created "htmlLink" JNull); simpl;
      [destruct (Py.get data "title" JNull); simpl|]|]|];
    by rewrite (calendar_calls_after w w1 _
                  [EventsInsert "primary" event] Hstep).
Qed.

(** C5.  For a body with [date] and [time], [create_event] builds an
    event whose [start] is ["<date>T<time>:00"] in the zone
    [America/New_York] and whose [end] is built in the same way from
    [end_time] when the body has it and from [time] otherwise, so that
    without [end_time] the end is the start.  For a body with [date] and
    no [time], [start] and [end] are [{date: <date>}].  The body
    [{date: "2025-01-10", time: "09:00"}] gives
    ["2025-01-10T09:00:00"] for both.  The view passes the event it
    built to the calendar's insert. *)
Theorem C5_create_event_dates :
  (∀ (d : gmap string json) (date time : json),
     d !! "date" = Some date → d !! "time" = Some time →
     ∃ ev, new_event (JObj d) = Return (JObj ev)
     ∧ ev !! "start"
       = Some (dict [("dateTime", JStr (str date +:+ "T" +:+ str time
                                        +:+ ":00"));
                     ("timeZone", JStr "America/New_York")])
     ∧ ev !! "end"
       = Some (dict [("dateTime", JStr (str date +:+ "T"
                          +:+ str (default time (d !! "end_time"))
                          +:+ ":00"));
                     ("timeZone", JStr "America/New_York")])
     ∧ (d !! "end_time" = None → ev !! "end" = ev !! "start"))
  ∧ (∀ (d : gmap string json) (date : json),
       d !! "date" = Some date → d !! "time" = None →
       ∃ ev, new_event (JObj d) = Return (JObj ev)
       ∧ ev !! "start" = Some (dict [("date", date)])
       ∧ ev !! "end" = Some (dict [("date", date)]))
  ∧ (∃ ev, new_event (JObj {["date" := JStr "2025-01-10";
                              "time" := JStr "09:00"]})
           = Return (JObj ev)
     ∧ ev !! "start"
       = Some (dict [("dateTime", JStr "2025-01-10T09:00:00");
                     ("timeZone", JStr "America/New_York")])
     ∧ ev !! "end"
       = Some (dict [("dateTime", JStr "2025-01-10T09:00:00");
                     ("timeZone", JStr "America/New_York")]))
  ∧ (∀ req w w1 service data event,
       headers req !! "X-API-Key" = Some (API_KEY w) →
       get_calendar_service w = (Return service, w1) →
       body req = Return data →
       new_event data = Return event →
       calendar_calls (new_calls w (create_event req w).2)
       = [EventsInsert "primary" event]).
Proof.
  split; [|split; [|split]].
  - intros d date time Hd Ht. eexists. split; [apply new_event_eq|].
    cbv zeta. rewrite Hd, Ht. split; [|split].
    + rewrite lookup_insert_ne by done. by rewrite lookup_insert_eq.
    + by rewrite lookup_insert_eq.
    + intros ->. simpl. rewrite lookup_insert_eq.
      rewrite lookup_insert_ne by done. by rewrite lookup_insert_eq.
  - intros d date Hd Ht. eexists. split; [apply new_event_eq|].
    cbv zeta. rewrite Hd, Ht. split.
    + rewrite lookup_insert_ne by done. by rewrite lookup_insert_eq.
    + by rewrite lookup_insert_eq.
  - eexists. split; [apply new_event_eq|]. cbv zeta. split; reflexivity.
  - apply create_event_inserts.
Qed.

(** *** List *)

Lemma get_events_lists (req : request) (w w1 : world) (service : Service)
    (d : Datetime.t) (n : Z) :
  headers req !! "X-API-Key" = Some (API_KEY w) →
  get_calendar_service w = (Return service, w1) →
  strptime (default (today w) (args req !! "date")) = Return d →
  Datetime.valid d = true →
  match args req !! "days" with
  | Some s => int s
  | None => Return 7
  end = Return n →
  0 < Datetime.toordinal d + n ≤ Datetime.MAXORDINAL →
  calendar_calls (new_calls w (get_events req w).2)
  = [EventsList
       {| calendarId := "primary";
          timeMin := Some (Datetime.isoformat d +:+ "Z");
          timeMax :=
            Some (Datetime.isoformat
                    (Datetime.ord2ymd (Datetime.toordinal d + n)) +:+ "Z");
          maxResults := 50;
          singleEvents := true;
          orderBy := "startTime";
          q := Py.nonempty (Some (default "" (args req !! "query"))) |}].
Proof.
  intros Hkey Hsvc Hdate Hvalid Hdays Hrange.
  pose proof (get_calendar_service_frame _ _ _ Hsvc) as Hstep.
  assert (Htoday : today w1 = today w) by apply Hstep.
  pose proof (DatetimeFacts.toordinal_valid d Hvalid) as Hord.
  unfold Datetime.MAXORDINAL in *.
  unfold get_events. rewrite require_api_key_accept by done.
  unfold try_except, get_events_body.
  rewrite (bind_Return _ _ _ _ _ Hsvc).
  unfold service_events_list, bind, lift, log, gets, ret, internal_error.
  rewrite Htoday, Hdays, Hdate. simpl.
  rewrite DatetimeFacts.timedelta_Return by lia.
  rewrite DatetimeFacts.add_Return by (unfold Datetime.MAXORDINAL; lia).
  simpl.
  destruct (events_list _ _ _) as [events_result|e]; simpl;
    [destruct (format_events events_result); simpl|];
    by erewrite (calendar_calls_after w w1 _ [EventsList _] Hstep).
Qed.

(** [get_events] once the service is obtained and both parameters are
    read, when the addition raises. *)
Lemma get_events_overflow (req : request) (w w1 : world) (service : Service)
    (d : Datetime.t) (n : Z) (msg : string) :
  headers req !! "X-API-Key" = Some (API_KEY w) →
  get_calendar_service w = (Return service, w1) →
  strptime (default (today w) (args req !! "date")) = Return d →
  match args req !! "days" with
  | Some s => int s
  | None => Return 7
  end = Return n →
  (delta ← Datetime.timedelta n; Datetime.add d delta)%R
  = Raise (Exn OverflowError msg) →
  get_events req w = (Return (error_envelope msg 500), w1).
Proof.
  intros Hkey Hsvc Hdate Hdays Hadd.
  assert (Htoday : today w1 = today w)
    by apply (get_calendar_service_frame _ _ _ Hsvc).
  unfold get_events. rewrite require_api_key_accept by done.
  unfold try_except, get_events_body.
  rewrite (bind_Return _ _ _ _ _ Hsvc).
  unfold bind, lift, gets, ret, internal_error. simpl.
  rewrite Htoday, Hdays, Hdate. simpl.
  destruct (Datetime.timedelta n) as [delta|e]; simpl in Hadd.
  - by rewrite Hadd.
  - by injection Hadd as ->.
Qed.

(** C6, as amended.  For a date of the calendar that [strptime] reads
    (from the [date] parameter, or from the current date when it is
    absent) and a number of days that [int] reads (from the [days]
    parameter, or 7 when it is absent):

    - when the date that many days later is a date of the years 1 to
      9999, [get_events] makes one call on the calendar: a list of the
      calendar [primary] whose lower bound is the date at midnight,
      whose upper bound is the date exactly that many days later at
      midnight, with the query as free-text filter when it is not empty
      and no filter otherwise, expanded into single events, ordered by
      start time, and capped at 50 results;
    - otherwise building the number of days or adding it raises
      [OverflowError], and the answer is status 500 with the text of
      that exception, in the world [get_calendar_service] left: no list
      request is made. *)
Theorem C6_list_window (req : request) (w w1 : world) (service : Service)
    (d : Datetime.t) (n : Z) :
  headers req !! "X-API-Key" = Some (API_KEY w) →
  get_calendar_service w = (Return service, w1) →
  strptime (default (today w) (args req !! "date")) = Return d →
  Datetime.valid d = true →
  match args req !! "days" with
  | Some s => int s
  | None => Return 7
  end = Return n →
  (0 < Datetime.toordinal d + n ≤ Datetime.MAXORDINAL →
   calendar_calls (new_calls w (get_events req w).2)
   = [EventsList
        {| calendarId := "primary";
           timeMin := Some (Datetime.isoformat d +:+ "Z");
           timeMax :=
             Some (Datetime.isoformat
                     (Datetime.ord2ymd (Datetime.toordinal d + n)) +:+ "Z");
           maxResults := 50;
           singleEvents := true;
           orderBy := "startTime";
           q := match args req !! "query" with
                | Some "" | None => None
                | Some query => Some query
                end |}]
   ∧ Datetime.toordinal (Datetime.ord2ymd (Datetime.toordinal d + n))
     = Datetime.toordinal d + n)
  ∧ (¬ (0 < Datetime.toordinal d + n ≤ Datetime.MAXORDINAL) →
     ∃ msg,
       (delta ← Datetime.timedelta n; Datetime.add d delta)%R
       = Raise (Exn OverflowError msg)
       ∧ get_events req w = (Return (error_envelope msg 500), w1)
       ∧ calendar_calls (new_calls w w1) = []
       ∧ calendar w1 = calendar w).
Proof.
  intros Hkey Hsvc Hdate Hvalid Hdays. split.
  - intros Hrange. split.
    + rewrite (get_events_lists req w w1 service d n) by done.
      do 3 f_equal. by destruct (args req !! "query") as [[|??]|].
    + pose proof (DatetimeFacts.toordinal_valid d Hvalid).
      apply DatetimeFacts.toordinal_ord2ymd. lia.
  - intros Hrange.
    destruct (DatetimeFacts.add_days_Raise d n Hrange) as [msg Hadd].
    pose proof (get_calendar_service_frame _ _ _ Hsvc) as Hstep.
    exists msg. split; [done|].
    split; [by apply (get_events_overflow req w w1 service d n)|].
    split; [by apply auth_step_calendar_calls | apply Hstep].
Qed.

(** *** The simplified events *)

Lemma format_event_eq (ev s e : gmap string json) (i : json) :
  ev !! "id" = Some i →
  ev !! "start" = Some (JObj s) →
  ev !! "end" = Some (JObj e) →
  format_event (JObj ev)
  = Return (dict
      [("id", i);
       ("title", default (JStr "No title") (ev !! "summary"));
       ("start", default (default JNull (s !! "date")) (s !! "dateTime"));
       ("end", default (default JNull (e !! "date")) (e !! "dateTime"));
       ("description", default (JStr "") (ev !! "description"));
       ("location", default (JStr "") (ev !! "location"))]).
Proof. intros Hi Hs He. unfold format_event. simpl. by rewrite Hi, Hs, He. Qed.

Lemma for_each_Forall2 {A B} (f : A → result B) (l : list A) (l' : list B) :
  for_each f l = Return l' → Forall2 (λ x y, f x = Return y) l l'.
Proof.
  revert l'. induction l as [|x l IH]; intros l'; simpl.
  - intros [= <-]. constructor.
  - destruct (f x) as [y|] eqn:Hx; [|done]. simpl.
    destruct (for_each f l) as [ys|]; [|done]. simpl.
    intros [= <-]. constructor; auto.
Qed.

Lemma get_events_200 (req : request) (w : world) (body : json) :
  (get_events req w).1 = Return (body, 200) →
  ∃ service a events_result fs,
    events_list service a (calendar w) = Return events_result
    ∧ format_events events_result = Return fs
    ∧ body = dict [("success", JBool true); ("events", JArr fs);
                   ("count", JNum (Z.of_nat (length fs)))].
Proof.
  unfold get_events, require_api_key, bind at 1, gets.
  case_bool_decide; [done|].
  unfold try_except, get_events_body.
  destruct (get_calendar_service w) as [[service|e] w1] eqn:Hsvc;
    [rewrite (bind_Return _ _ _ _ _ Hsvc)
    |by rewrite (bind_Raise _ _ _ _ _ Hsvc)].
  assert (Hcal : calendar w1 = calendar w)
    by apply (get_calendar_service_frame _ _ _ Hsvc).
  unfold service_events_list, bind, lift, log, gets, ret, internal_error.
  simpl.
  destruct (match args req !! "days" with
            | Some s => int s | None => Return 7 end); [|done].
  destruct (strptime _); [|done]. simpl.
  destruct (Datetime.timedelta _); [|done].
  destruct (Datetime.add _ _); [|done]. simpl. rewrite Hcal.
  destruct (events_list _ _ _) as [events_result|] eqn:Hlist; [|done]. simpl.
  destruct (format_events events_result) as [fs|] eqn:Hfs; [|done]. simpl.
  intros [= <-]. eauto 10.
Qed.

Lemma search_events_200 (req : request) (w : world) (body : json) :
  (search_events req w).1 = Return (body, 200) →
  ∃ service a events_result fs query,
    events_list service a (calendar w) = Return events_result
    ∧ format_events events_result = Return fs
    ∧ body = dict [("success", JBool true); ("events", JArr fs);
                   ("count", JNum (Z.of_nat (length fs)));
                   ("query", JStr query)].
Proof.
  unfold search_events, require_api_key, bind at 1, gets.
  case_bool_decide; [done|].
  unfold try_except, search_events_body.
  destruct (get_calendar_service w) as [[service|e] w1] eqn:Hsvc;
    [rewrite (bind_Return _ _ _ _ _ Hsvc)
    |by rewrite (bind_Raise _ _ _ _ _ Hsvc)].
  assert (Hcal : calendar w1 = calendar w)
    by apply (get_calendar_service_frame _ _ _ Hsvc).
  destruct (Py.nonempty _) as [query|]; [|done].
  unfold service_events_list, bind, lift, log, gets, ret, internal_error.
  simpl. rewrite Hcal.
  destruct (events_list _ _ _) as [events_result|] eqn:Hlist; [|done]. simpl.
  destruct (format_events events_result) as [fs|] eqn:Hfs; [|done]. simpl.
  intros [= <-]. eauto 10.
Qed.

(** C7, as amended.  A provider event with an [id] and with [start] and
    [end] objects is mapped to a simplified event whose [id] is the
    provider's, whose [title] is the [summary] when the event has that
    key and ["No title"] when it has not, and whose [start] and [end]
    are the provider's [dateTime] when that key is present and its
    [date] otherwise.  The mapping copies what it finds: the title is
    null exactly when the provider gives a summary that is null (the
    default stands in for an absent key, not for a null value), and the
    id is null exactly when the provider's is.  The events of a [200]
    answer of the list and of the search are the provider's items
    mapped this way, one by one and in order. *)
Theorem C7_simplified_events :
  (∀ (ev s e : gmap string json) (i : json),
     ev !! "id" = Some i →
     ev !! "start" = Some (JObj s) →
     ev !! "end" = Some (JObj e) →
     ∃ f title,
       format_event (JObj ev) = Return (JObj f)
       ∧ f !! "id" = Some i
       ∧ f !! "title" = Some title
       ∧ title = match ev !! "summary" with
                 | Some summary => summary
                 | None => JStr "No title"
                 end
       ∧ (title = JNull ↔ ev !! "summary" = Some JNull)
       ∧ f !! "start" = Some (match s !! "dateTime" with
                              | Some v => v
                              | None => default JNull (s !! "date")
                              end)
       ∧ f !! "end" = Some (match e !! "dateTime" with
                            | Some v => v
                            | None => default JNull (e !! "date")
                            end))
  ∧ (∀ (r : gmap string json) (items fs : list json),
       r !! "items" = Some (JArr items) →
       format_events (JObj r) = Return fs →
       Forall2 (λ ev f, format_event ev = Return f) items fs)
  ∧ (∀ req w body,
       (get_events req w).1 = Return (body, 200) →
       ∃ service a events_result fs,
         events_list service a (calendar w) = Return events_result
         ∧ format_events events_result = Return fs
         ∧ body = dict [("success", JBool true); ("events", JArr fs);
                        ("count", JNum (Z.of_nat (length fs)))])
  ∧ (∀ req w body,
       (search_events req w).1 = Return (body, 200) →
       ∃ service a events_result fs query,
         events_list service a (calendar w) = Return events_result
         ∧ format_events events_result = Return fs
         ∧ body = dict [("success", JBool true); ("events", JArr fs);
                        ("count", JNum (Z.of_nat (length fs)));
                        ("query", JStr query)]).
Proof.
  split; [|split; [|split]].
  - intros ev s e i Hi Hs He.
    eexists _, (default (JStr "No title") (ev !! "summary")).
    split; [by apply format_event_eq|].
    split; [reflexivity|]. split; [reflexivity|].
    split; [by destruct (ev !! "summary")|].
    split; [destruct (ev !! "summary"); simpl; naive_solver|].
    split.
    + by destruct (s !! "dateTime").
    + by destruct (e !! "dateTime").
  - intros r items fs Hitems. unfold format_events. simpl.
    rewrite Hitems. simpl. apply for_each_Forall2.
  - apply get_events_200.
  - apply search_events_200.
Qed.

(** *** Default titles *)

Lemma delete_event_untitled (event_id : string) (req : request)
    (w w1 : world) (service : Service) (ev : gmap string json)
    (deleted : json) (cal' : Calendar) :
  headers req !! "X-API-Key" = Some (API_KEY w) →
  get_calendar_service w = (Return service, w1) →
  events_get service "primary" event_id (calendar w) = Return (JObj ev) →
  ev !! "summary" = None →
  events_delete service "primary" event_id (calendar w)
  = (Return deleted, cal') →
  (delete_event event_id req w).1
  = Return (dict [("success", JBool true);
                  ("message",
                   JStr "Event 'Untitled Event' deleted successfully")],
            200).
Proof.
  intros Hkey Hsvc Hget Hsum Hdel.
  assert (Hcal : calendar w1 = calendar w)
    by apply (get_calendar_service_frame _ _ _ Hsvc).
  unfold delete_event. rewrite require_api_key_accept by done.
  unfold try_except, delete_event_body.
  rewrite (bind_Return _ _ _ _ _ Hsvc).
  unfold service_events_get, service_events_delete, bind, log, gets, lift,
    on_calendar. simpl. rewrite Hcal, Hget. simpl. rewrite Hsum, Hdel. done.
Qed.

Lemma create_event_untitled (req : request) (w w1 : world)
    (service : Service) (d ev created : gmap string json) (cal' : Calendar)
    (event_id : json) :
  headers req !! "X-API-Key" = Some (API_KEY w) →
  get_calendar_service w = (Return service, w1) →
  body req = Return (JObj d) →
  d !! "title" = None →
  new_event (JObj d) = Return (JObj ev) →
  events_insert service "primary" (JObj ev) (calendar w)
  = (Return (JObj created), cal') →
  created !! "id" = Some event_id →
  (create_event req w).1
  = Return (dict [("success", JBool true);
                  ("event_id", event_id);
                  ("event_link", default JNull (created !! "htmlLink"));
                  ("message", JStr "Event 'None' created successfully")],
            200).
Proof.
  intros Hkey Hsvc Hbody Htitle Hev Hins Hid.
  assert (Hcal : calendar w1 = calendar w)
    by apply (get_calendar_service_frame _ _ _ Hsvc).
  unfold create_event. rewrite require_api_key_accept by done.
  unfold try_except, create_event_body.
  rewrite (bind_Return _ _ _ _ _ Hsvc).
  unfold service_events_insert, bind, lift, log, on_calendar, ret.
  rewrite Hbody, Hev. simpl. rewrite Hcal, Hins. simpl.
  by rewrite Hid, Htitle.
Qed.

(** C10.  When the event that [delete_event] fetched has no [summary],
    the message of a successful deletion is ["Event 'Untitled Event'
    deleted successfully"], whereas the list and the search give such an
    event the title ["No title"]: the two defaults differ.  A create
    request whose body has no [title] inserts an event whose summary is
    ["New Event"], and is answered with status 200 when the insert
    returns an event with an [id]. *)
Theorem C10_default_titles :
  (∀ event_id req w w1 service (ev : gmap string json) deleted cal',
     headers req !! "X-API-Key" = Some (API_KEY w) →
     get_calendar_service w = (Return service, w1) →
     events_get service "primary" event_id (calendar w) = Return (JObj ev) →
     ev !! "summary" = None →
     events_delete service "primary" event_id (calendar w)
     = (Return deleted, cal') →
     (delete_event event_id req w).1
     = Return (dict [("success", JBool true);
                     ("message",
                      JStr "Event 'Untitled Event' deleted successfully")],
               200))
  ∧ (∀ (ev s e : gmap string json) (i : json),
       ev !! "id" = Some i → ev !! "summary" = None →
       ev !! "start" = Some (JObj s) → ev !! "end" = Some (JObj e) →
       ∃ f, format_event (JObj ev) = Return (JObj f)
            ∧ f !! "title" = Some (JStr "No title"))
  ∧ "Untitled Event" ≠ "No title"
  ∧ (∀ req w w1 service (d : gmap string json),
       headers req !! "X-API-Key" = Some (API_KEY w) →
       get_calendar_service w = (Return service, w1) →
       body req = Return (JObj d) →
       d !! "title" = None →
       ∃ ev, new_event (JObj d) = Return (JObj ev)
       ∧ ev !! "summary" = Some (JStr "New Event")
       ∧ calendar_calls (new_calls w (create_event req w).2)
         = [EventsInsert "primary" (JObj ev)]
       ∧ ∀ (created : gmap string json) cal' event_id,
           events_insert service "primary" (JObj ev) (calendar w)
           = (Return (JObj created), cal') →
           created !! "id" = Some event_id →
           ∃ body, (create_event req w).1 = Return (body, 200)).
Proof.
  split; [|split; [|split]].
  - apply delete_event_untitled.
  - intros ev s e i Hi Hsum Hs He. eexists.
    split; [by apply format_event_eq|]. by rewrite Hsum.
  - done.
  - intros req w w1 service d Hkey Hsvc Hbody Htitle.
    eexists. split; [apply new_event_eq|]. cbv zeta. split; [|split].
    + rewrite Htitle.
      by destruct (d !! "date"), (d !! "time");
        rewrite ?lookup_insert_ne by done.
    + eapply create_event_inserts; eauto using new_event_eq.
    + intros created cal' event_id Hins Hid. eexists.
      eapply create_event_untitled; eauto using new_event_eq.
Qed.

End Views.

(** ** The credential store *)

Section Credentials.
Context `{L : Collaborators}.

#[local] Instance same_files_preorder : PreOrder same_files.
Proof. split; [done | intros ??? H1 H2; unfold same_files in *; congruence]. Qed.

Ltac preserves_files :=
  repeat first
    [ apply preserves_bind; [apply _ | |intros ?]
    | apply preserves_try_except; [apply _ | |intros ?]
    | apply preserves_ret; apply _
    | apply preserves_gets; apply _
    | apply preserves_lift; apply _
    | apply preserves_raise; apply _
    | (intros ?; reflexivity)
    | match goal with
      | |- preserves _ (match ?x with _ => _ end) => destruct x
      | |- preserves _ (if ?x then _ else _) => destruct x
      end ].

Lemma same_files_on_auth_server {A}
    (f : AuthServer → result A * AuthServer) :
  preserves same_files (on_auth_server f).
Proof.
  intros w. unfold on_auth_server. by destruct (f (auth_server w)).
Qed.

Lemma same_files_load_credentials : preserves same_files load_credentials.
Proof.
  unfold load_credentials, pickle_load, open_read, path_exists, print, log.
  preserves_files.
Qed.

Lemma same_files_load_flow : preserves same_files load_flow.
Proof.
  unfold load_flow, open_read, path_exists, log. preserves_files.
Qed.

Lemma same_files_service_build creds :
  preserves same_files (service_build creds).
Proof. unfold service_build, log. preserves_files. Qed.

Lemma same_files_creds_refresh c : preserves same_files (creds_refresh c).
Proof.
  unfold creds_refresh, log.
  apply preserves_bind; [apply _ | by intros ? | intros ?].
  apply same_files_on_auth_server.
Qed.

Lemma load_credentials_parse_failure (w : world) (token : string) (e : exn) :
  Py.nonempty (GOOGLE_TOKEN w) = Some token →
  (json_loads token = Raise e
   ∨ ∃ token_data, json_loads token = Return token_data
       ∧ from_authorized_user_info token_data SCOPES = Raise e) →
  load_credentials w
  = (Return None,
     record w [Print ("Error loading token from environment: "
                      +:+ exn_str e)]).
Proof.
  intros Htoken Hfail. unfold load_credentials, bind at 1, gets.
  rewrite Htoken. unfold try_except, bind, lift, print, log, ret.
  destruct Hfail as [-> | (token_data & -> & ->)]; done.
Qed.

Lemma load_credentials_file (w : world) (c : Credentials) :
  Py.nonempty (GOOGLE_TOKEN w) = None →
  files w !! "token.pickle" = Some (Pickle c) →
  load_credentials w
  = (Return (Some c),
     record w [PathExists "token.pickle"; OpenRead "token.pickle"]).
Proof.
  intros Htoken Hfile. unfold load_credentials, bind at 1, gets.
  rewrite Htoken.
  unfold path_exists, open_read, pickle_load, bind, gets, log, ret. simpl.
  repeat (rewrite Hfile; simpl). unfold record. simpl.
  by rewrite <- app_assoc.
Qed.

Lemma get_calendar_service_refreshed (w w0 : world)
    (creds : option Credentials) (c : Credentials) :
  load_credentials w = (Return creds, w0) →
  needs_authorization creds = true → refreshable creds = Some c →
  files (get_calendar_service w).2 = files w
  ∧ ∀ c' a, refresh c (auth_server w0) = (Return c', a) →
      (get_calendar_service w).1 = build (Some c').
Proof.
  intros Hload Hneeds Hrefr.
  pose proof (same_files_load_credentials w) as Hfiles0.
  rewrite Hload in Hfiles0. unfold same_files in Hfiles0. simpl in Hfiles0.
  unfold get_calendar_service. rewrite (bind_Return _ _ _ _ _ Hload).
  unfold authorize. rewrite Hneeds, Hrefr. split.
  - rewrite <- Hfiles0.
    apply (preserves_bind same_files); [|apply same_files_service_build].
    apply (preserves_bind same_files); [apply same_files_creds_refresh|].
    by intros ??.
  - intros c' a Hc'.
    unfold creds_refresh, service_build, bind, log, on_auth_server, lift,
      ret. simpl. by rewrite Hc'.
Qed.

Lemma get_calendar_service_acquired (w w0 w' : world)
    (creds : option Credentials) (service : Service) :
  load_credentials w = (Return creds, w0) →
  needs_authorization creds = true → refreshable creds = None →
  get_calendar_service w = (Return service, w') →
  ∃ flow a c',
    run_local_server flow a = (Return c', auth_server w')
    ∧ build (Some c') = Return service
    ∧ files w' = <["token.pickle" := Pickle c']> (files w).
Proof.
  intros Hload Hneeds Hrefr.
  pose proof (same_files_load_credentials w) as Hfiles0.
  rewrite Hload in Hfiles0. unfold same_files in Hfiles0. simpl in Hfiles0.
  unfold get_calendar_service. rewrite (bind_Return _ _ _ _ _ Hload).
  unfold authorize. rewrite Hneeds, Hrefr.
  pose proof (same_files_load_flow w0) as Hfiles1.
  unfold same_files in Hfiles1.
  unfold bind at 1 2 3.
  destruct (load_flow w0) as [[flow|e] w2]; [|done]. simpl in Hfiles1.
  unfold path_exists, flow_run_local_server, pickle_dump, service_build,
    bind, log, gets, on_auth_server, set_file, lift, ret, raise. simpl.
  case_bool_decide; [|done]. simpl.
  destruct (run_local_server flow (auth_server w2)) as [[c'|e] a] eqn:Hrun;
    [|done]. simpl.
  destruct (build (Some c')) as [service'|e] eqn:Hbuild; [|done].
  intros [= <- <-]. simpl. exists flow, (auth_server w2), c'.
  by rewrite Hfiles1, Hfiles0.
Qed.

Lemma same_environ_get_calendar_service (w : world) :
  environ (get_calendar_service w).2 = environ w.
Proof. apply auth_step_get_calendar_service. Qed.

Lemma load_credentials_parsed (w : world) (token : string)
    (token_data : json) (c : Credentials) :
  Py.nonempty (GOOGLE_TOKEN w) = Some token →
  json_loads token = Return token_data →
  from_authorized_user_info token_data SCOPES = Return c →
  load_credentials w = (Return (Some c), w).
Proof.
  intros Htoken Hjson Hinfo. unfold load_credentials, bind at 1, gets.
  rewrite Htoken. unfold try_except, bind, lift, ret.
  by rewrite Hjson, Hinfo.
Qed.

Lemma load_credentials_no_file (w : world) :
  Py.nonempty (GOOGLE_TOKEN w) = None →
  files w !! "token.pickle" = None →
  load_credentials w = (Return None, record w [PathExists "token.pickle"]).
Proof.
  intros Htoken Hfile. unfold load_credentials, bind at 1, gets.
  rewrite Htoken.
  unfold path_exists, bind, gets, log, ret. simpl. by rewrite Hfile.
Qed.

(** With an inline token that is not empty, [load_credentials] prints
    at most: it makes no call about the token file. *)
Lemma load_credentials_inline_calls (w : world) (token : string) :
  Py.nonempty (GOOGLE_TOKEN w) = Some token →
  ∀ path, (PathExists path ∉ new_calls w (load_credentials w).2)
          ∧ (OpenRead path ∉ new_calls w (load_credentials w).2).
Proof.
  intros Htoken path.
  destruct (json_loads token) as [token_data|e] eqn:Hjson;
    [destruct (from_authorized_user_info token_data SCOPES) as [c|e]
       eqn:Hinfo|].
  - rewrite (load_credentials_parsed w token token_data c) by done.
    unfold new_calls. simpl. rewrite drop_all.
    split; apply not_elem_of_nil.
  - rewrite (load_credentials_parse_failure w token e) by eauto.
    simpl. rewrite new_calls_record.
    split; intros [? | ?%elem_of_nil]%elem_of_cons; done.
  - rewrite (load_credentials_parse_failure w token e) by eauto.
    simpl. rewrite new_calls_record.
    split; intros [? | ?%elem_of_nil]%elem_of_cons; done.
Qed.

(** C8, as amended.  When the inline token is present and not empty and
    fails to parse ([json.loads] or [from_authorized_user_info] raises),
    [get_calendar_service] prints the failure and goes on to
    authorization with no credential; the print is all it does before:
    the local token file is neither looked for nor read.  When the
    inline token parses, the credential read from it is the one loaded
    and nothing else is done.  In either case, that is whenever the
    inline token is not empty, no call is made about the token file.
    The token file is looked for when the inline token is absent or
    empty, and read when it exists. *)
Theorem C8_inline_token_parse_failure :
  (∀ (w : world) (token : string) (e : exn),
     Py.nonempty (GOOGLE_TOKEN w) = Some token →
     (json_loads token = Raise e
      ∨ ∃ token_data, json_loads token = Return token_data
          ∧ from_authorized_user_info token_data SCOPES = Raise e) →
     load_credentials w
     = (Return None,
        record w [Print ("Error loading token from environment: "
                         +:+ exn_str e)])
     ∧ get_calendar_service w
       = bind (authorize None) service_build
           (record w [Print ("Error loading token from environment: "
                             +:+ exn_str e)]))
  ∧ (∀ (w : world) (token : string) (token_data : json) (c : Credentials),
       Py.nonempty (GOOGLE_TOKEN w) = Some token →
       json_loads token = Return token_data →
       from_authorized_user_info token_data SCOPES = Return c →
       load_credentials w = (Return (Some c), w))
  ∧ (∀ (w : world) (token path : string),
       Py.nonempty (GOOGLE_TOKEN w) = Some token →
       (PathExists path ∉ new_calls w (load_credentials w).2)
       ∧ (OpenRead path ∉ new_calls w (load_credentials w).2))
  ∧ (∀ (w : world) (c : Credentials),
       Py.nonempty (GOOGLE_TOKEN w) = None →
       files w !! "token.pickle" = Some (Pickle c) →
       load_credentials w
       = (Return (Some c),
          record w [PathExists "token.pickle"; OpenRead "token.pickle"]))
  ∧ (∀ w : world,
       Py.nonempty (GOOGLE_TOKEN w) = None →
       files w !! "token.pickle" = None →
       load_credentials w
       = (Return None, record w [PathExists "token.pickle"])).
Proof.
  split; [|split; [|split; [|split]]].
  - intros w token e Htoken Hfail.
    pose proof (load_credentials_parse_failure w token e Htoken Hfail) as H.
    split; [done|].
    unfold get_calendar_service. by rewrite (bind_Return _ _ _ _ _ H).
  - apply load_credentials_parsed.
  - intros w token path Htoken.
    by apply (load_credentials_inline_calls w token).
  - apply load_credentials_file.
  - apply load_credentials_no_file.
Qed.

(** C9, as amended.  A credential newly acquired through the local
    server flow is written to the local token file.  A credential that
    was loaded, from either source, and refreshed is used to build the
    service, and the local files are left as they were.  The
    environment, which holds the inline token, is never changed. *)
Theorem C9_persists_acquired_credentials :
  (∀ (w w0 w' : world) (creds : option Credentials) (service : Service),
     load_credentials w = (Return creds, w0) →
     needs_authorization creds = true → refreshable creds = None →
     get_calendar_service w = (Return service, w') →
     ∃ flow a c',
       run_local_server flow a = (Return c', auth_server w')
       ∧ build (Some c') = Return service
       ∧ files w' = <["token.pickle" := Pickle c']> (files w))
  ∧ (∀ (w w0 : world) (creds : option Credentials) (c : Credentials),
       load_credentials w = (Return creds, w0) →
       needs_authorization creds = true → refreshable creds = Some c →
       files (get_calendar_service w).2 = files w
       ∧ ∀ c' a, refresh c (auth_server w0) = (Return c', a) →
           (get_calendar_service w).1 = build (Some c'))
  ∧ (∀ w : world, environ (get_calendar_service w).2 = environ w).
Proof.
  split; [|split].
  - apply get_calendar_service_acquired.
  - apply get_calendar_service_refreshed.
  - apply same_environ_get_calendar_service.
Qed.

End Credentials.

(** * Further properties

    What the module does beyond the statements above: the shape of its
    answers, the paths of the credential store, the errors of the views,
    and the calls it never makes. *)

(** ** Answers *)

Section Envelopes.
Context `{L : Collaborators}.

Lemma returns_ret {A} (Q : A → Prop) (a : A) : Q a → returns Q (ret a).
Proof. intros Ha w a' w' [= <- _]. done. Qed.

Lemma returns_bind {A B} (Q : B → Prop) (m : M A) (k : A → M B) :
  (∀ a, returns Q (k a)) → returns Q (bind m k).
Proof.
  intros Hk w b w'. unfold bind.
  destruct (m w) as [[a|e] w1]; [apply Hk | done].
Qed.

Lemma view_keyed (r : route) (req : request) (w : world) :
  r ≠ GET_health →
  headers req !! "X-API-Key" = Some (API_KEY w) →
  view r req w = try_except (view_body r req) internal_error w.
Proof.
  intros Hr Hkey.
  destruct r; try done; simpl;
    unfold get_events, create_event, update_event, delete_event,
      search_events;
    by rewrite require_api_key_accept.
Qed.

(** What a view returns when it does not raise: a 200 answer with
    [success: true], or the 400 answer of the search. *)
Lemma view_body_returns (r : route) (req : request) :
  r ≠ GET_health →
  returns (λ resp : response,
             (resp.2 = 200
              ∧ ∃ m, resp.1 = JObj m ∧ m !! "success" = Some (JBool true))
             ∨ resp = error_envelope "Query parameter required" 400)
    (view_body r req).
Proof.
  intros Hr.
  destruct r; try done; simpl;
    unfold get_events_body, create_event_body, update_event_body,
      delete_event_body, search_events_body;
    repeat (apply returns_bind; intros ?);
    try (destruct (Py.nonempty _); [repeat (apply returns_bind; intros ?)|]);
    apply returns_ret;
    ((left; split; [done|]; eexists; split; [reflexivity|]; done)
     || by right).
Qed.

(** The answer on a route behind the key. *)
Lemma view_answers (r : route) (req : request) (w : world) :
  r ≠ GET_health →
  ∃ body status w',
    view r req w = (Return (body, status), w')
    ∧ ((status = 200
        ∧ ∃ m, body = JObj m ∧ m !! "success" = Some (JBool true))
       ∨ (∃ msg, body = dict [("success", JBool false);
                              ("error", JStr msg)])
         ∧ (status = 401
            ↔ headers req !! "X-API-Key" ≠ Some (API_KEY w))
         ∧ (status = 400 ∨ status = 401 ∨ status = 500)).
Proof.
  intros Hr.
  destruct (decide (headers req !! "X-API-Key" = Some (API_KEY w)))
    as [Hkey|Hkey].
  - rewrite view_keyed by done. unfold try_except.
    destruct (view_body r req w) as [[[body status]|e] w'] eqn:Hbody.
    + exists body, status, w'. split; [done|].
      apply (view_body_returns r req Hr) in Hbody.
      destruct Hbody as [? | [= -> ->]]; [by left|]. right.
      split; [by eexists|]. split; [|auto]. by split.
    + eexists _, 500, w'. split; [done|]. right.
      split; [by eexists|]. split; [|auto]. by split.
  - eexists _, 401, w. split.
    + destruct r; try done; by apply require_api_key_reject.
    + right. split; [by eexists|]. split; [|auto]. by split.
Qed.

(** X1.  No view lets an exception escape: every request on every route
    is answered, with status 200, 400, 401 or 500.  Behind the key the
    body of a 200 answer carries [success: true], and the body of any
    other answer is [{success: false, error: msg}]. *)
Theorem X1_every_request_is_answered (r : route) (req : request)
    (w : world) :
  ∃ body status w',
    view r req w = (Return (body, status), w')
    ∧ ((r = GET_health ∧ status = 200)
       ∨ (status = 200
          ∧ ∃ m, body = JObj m ∧ m !! "success" = Some (JBool true))
       ∨ ((status = 400 ∨ status = 401 ∨ status = 500)
          ∧ ∃ msg, body = dict [("success", JBool false);
                                ("error", JStr msg)])).
Proof.
  assert (r = GET_health ∨ r ≠ GET_health) as [->|Hr]
    by (destruct r; (by left) || (by right)).
  - eexists _, 200, w. split; [reflexivity|]. by left.
  - destruct (view_answers r req w Hr)
      as (body & status & w' & Hv & [? | (? & _ & ?)]);
      exists body, status, w'; (split; [done|]); right; [by left | by right].
Qed.

(** X2.  Behind the key, status 401 is the answer to a wrong or missing
    key and to nothing else. *)
Theorem X2_unauthorized_iff_wrong_key (r : route) (req : request)
    (w : world) :
  r ≠ GET_health →
  (∃ body w', view r req w = (Return (body, 401), w'))
  ↔ headers req !! "X-API-Key" ≠ Some (API_KEY w).
Proof.
  intros Hr.
  destruct (view_answers r req w Hr)
    as (body & status & w' & Hv & [[Hst _] | (_ & Hiff & _)]).
  - split.
    + intros (body' & w'' & Hv'). rewrite Hv in Hv'. simplify_eq.
    + intros Hkey. exfalso.
      assert (view r req w
              = (Return (error_envelope "Invalid or missing API key" 401),
                 w)) as Hrej
        by (destruct r; try done; by apply require_api_key_reject).
      rewrite Hv in Hrej. simplify_eq.
  - rewrite <- Hiff. split.
    + intros (body' & w'' & Hv'). rewrite Hv in Hv'. by simplify_eq.
    + intros ->. eauto.
Qed.

(** X3.  When [get_calendar_service] raises, every route behind the key
    answers 500 with the text of the exception, in the world
    [get_calendar_service] left: the calendar is not called. *)
Theorem X3_no_service_no_calendar (r : route) (req : request)
    (w w' : world) (e : exn) :
  r ≠ GET_health →
  headers req !! "X-API-Key" = Some (API_KEY w) →
  get_calendar_service w = (Raise e, w') →
  view r req w
  = (Return (dict [("success", JBool false); ("error", JStr (exn_str e))],
             500), w')
  ∧ calendar w' = calendar w
  ∧ calendar_calls (new_calls w w') = [].
Proof.
  intros Hr Hkey Hsvc.
  pose proof (get_calendar_service_frame _ _ _ Hsvc) as Hstep.
  split; [|split; [apply Hstep | by apply auth_step_calendar_calls]].
  rewrite view_keyed by done. unfold try_except.
  destruct r; try done; simpl;
    unfold get_events_body, create_event_body, update_event_body,
      delete_event_body, search_events_body;
    by rewrite (bind_Raise _ _ _ _ _ Hsvc).
Qed.

End Envelopes.

(** ** Counting calls *)

Section Bounds.
Context `{L : Collaborators}.
Context (count : call → bool).

Lemma at_most_mono {A} (n n' : nat) (m : M A) :
  (n ≤ n')%nat → at_most count n m → at_most count n' m.
Proof.
  intros Hle Hm w. destruct (Hm w) as (l & Hl & Hn). exists l.
  split; [done | lia].
Qed.

Lemma at_most_pure {A} (n : nat) (m : M A) :
  (∀ w, (m w).2 = w) → at_most count n m.
Proof.
  intros Hm w. exists []. rewrite Hm, app_nil_r. split; [done | simpl; lia].
Qed.

Lemma at_most_bind {A B} (n k : nat) (m : M A) (f : A → M B) :
  at_most count n m → (∀ a, at_most count k (f a)) →
  at_most count (n + k) (bind m f).
Proof.
  intros Hm Hf w. unfold bind. destruct (Hm w) as (l1 & Hl1 & Hn1).
  destruct (m w) as [[a|e] w1]; simpl in *.
  - destruct (Hf a w1) as (l2 & Hl2 & Hn2). exists (l1 ++ l2).
    rewrite Hl2, Hl1, app_assoc. split; [done|].
    rewrite filter_app, length_app. lia.
  - exists l1. split; [done | lia].
Qed.

Lemma at_most_try_except {A} (n k : nat) (m : M A) (h : exn → M A) :
  at_most count n m → (∀ e, at_most count k (h e)) →
  at_most count (n + k) (try_except m h).
Proof.
  intros Hm Hh w. unfold try_except. destruct (Hm w) as (l1 & Hl1 & Hn1).
  destruct (m w) as [[a|e] w1]; simpl in *.
  - exists l1. split; [done | lia].
  - destruct (Hh e w1) as (l2 & Hl2 & Hn2). exists (l1 ++ l2).
    rewrite Hl2, Hl1, app_assoc. split; [done|].
    rewrite filter_app, length_app. lia.
Qed.

Lemma at_most_log (n : nat) (c : call) :
  ((if count c then 1 else 0) ≤ n)%nat → at_most count n (log c).
Proof.
  intros Hn w. exists [c]. split; [done|].
  destruct (count c) eqn:Hc.
  - rewrite filter_cons_True by done. simpl. lia.
  - rewrite filter_cons_False by (by rewrite Hc). simpl. lia.
Qed.

Lemma at_most_on_auth_server {A} (n : nat)
    (f : AuthServer → result A * AuthServer) :
  at_most count n (on_auth_server f).
Proof.
  intros w. exists []. unfold on_auth_server.
  destruct (f (auth_server w)). simpl. rewrite app_nil_r.
  split; [done | simpl; lia].
Qed.

Lemma at_most_on_calendar {A} (n : nat)
    (f : Calendar → result A * Calendar) :
  at_most count n (on_calendar f).
Proof.
  intros w. exists []. unfold on_calendar.
  destruct (f (calendar w)). simpl. rewrite app_nil_r.
  split; [done | simpl; lia].
Qed.

Lemma at_most_set_file (n : nat) path f :
  at_most count n (set_file path f).
Proof.
  intros w. exists []. simpl. rewrite app_nil_r. split; [done | simpl; lia].
Qed.

End Bounds.

(** A bind whose first part logs no selected call, or one. *)
Ltac at_most_step_with tac :=
  first
    [ tac
    | apply at_most_pure; intros ?; reflexivity
    | apply at_most_log; simpl; lia
    | apply at_most_on_auth_server
    | apply at_most_on_calendar
    | apply at_most_set_file
    | match goal with
      | |- at_most ?c ?n (try_except ?m ?h) =>
          apply (at_most_mono c (n + 0) n);
          [lia | apply at_most_try_except; [|intros ?]]
      end
    | match goal with
      | |- at_most _ _ (match ?x with _ => _ end) => destruct x
      | |- at_most _ _ (if ?x then _ else _) => destruct x
      end
    | match goal with
      | |- at_most ?c ?n (bind ?m ?f) =>
          apply (at_most_bind c 0 n m f); [solve [repeat at_most_step_with tac]|intros ?]
      end
    | match goal with
      | |- at_most ?c (S ?n) (bind ?m ?f) =>
          apply (at_most_bind c 1 n m f); [solve [repeat at_most_step_with tac]|intros ?]
      end ].

Ltac at_most_step := at_most_step_with fail.

(** ** Authorization *)

Section Authorization.
Context `{L : Collaborators}.

#[local] Instance local_step_preorder : PreOrder local_step.
Proof.
  split.
  - by intros w.
  - intros w1 w2 w3 (He1 & Ht1 & Hf1) (He2 & Ht2 & Hf2).
    repeat split; [congruence..|].
    intros path Hpath. by rewrite Hf2, Hf1.
Qed.

Lemma local_step_log c : preserves local_step (log c).
Proof. by intros w. Qed.

Lemma local_step_pickle_dump creds :
  preserves local_step (pickle_dump creds "token.pickle").
Proof.
  intros w. repeat split. intros path Hpath. simpl.
  by rewrite lookup_insert_ne.
Qed.

Lemma local_step_on_auth_server {A}
    (f : AuthServer → result A * AuthServer) :
  preserves local_step (on_auth_server f).
Proof.
  intros w. unfold on_auth_server. by destruct (f (auth_server w)).
Qed.

Lemma local_step_on_calendar {A} (f : Calendar → result A * Calendar) :
  preserves local_step (on_calendar f).
Proof. intros w. unfold on_calendar. by destruct (f (calendar w)). Qed.

Ltac preserves_local_with tac :=
  repeat first
    [ tac
    | apply preserves_bind; [apply _ | |intros ?]
    | apply preserves_try_except; [apply _ | |intros ?]
    | apply preserves_ret; apply _
    | apply preserves_gets; apply _
    | apply preserves_lift; apply _
    | apply preserves_raise; apply _
    | apply local_step_log
    | apply local_step_pickle_dump
    | apply local_step_on_auth_server
    | apply local_step_on_calendar
    | match goal with
      | |- preserves _ (match ?x with _ => _ end) => destruct x
      | |- preserves _ (if ?x then _ else _) => destruct x
      end ].

Ltac preserves_local := preserves_local_with fail.

Lemma local_step_load_credentials : preserves local_step load_credentials.
Proof.
  unfold load_credentials, pickle_load, open_read, path_exists, print.
  preserves_local.
Qed.

Lemma local_step_get_calendar_service :
  preserves local_step get_calendar_service.
Proof.
  unfold get_calendar_service, load_credentials, authorize, load_flow,
    service_build, creds_refresh, flow_run_local_server, pickle_load,
    open_read, path_exists, print.
  preserves_local.
Qed.

Lemma local_step_view (r : route) (req : request) :
  preserves local_step (view r req).
Proof.
  destruct r; simpl;
    unfold get_events, create_event, update_event, delete_event,
      search_events, health_check, require_api_key, get_events_body,
      create_event_body, update_event_body, delete_event_body,
      search_events_body, internal_error, service_events_list,
      service_events_get, service_events_insert, service_events_update,
      service_events_delete;
    preserves_local_with ltac:(apply local_step_get_calendar_service).
Qed.

Lemma load_credentials_frame (w w0 : world)
    (r : result (option Credentials)) :
  load_credentials w = (r, w0) →
  environ w0 = environ w ∧ files w0 = files w.
Proof.
  intros Hload. split.
  - pose proof (local_step_load_credentials w) as Hp.
    rewrite Hload in Hp. apply Hp.
  - pose proof (same_files_load_credentials w) as Hp.
    by rewrite Hload in Hp.
Qed.

Lemma load_credentials_contacts :
  at_most authorization_call 0 load_credentials.
Proof.
  unfold load_credentials, pickle_load, open_read, path_exists, print.
  repeat at_most_step.
Qed.

Lemma load_credentials_auth_server (w : world) :
  auth_server (load_credentials w).2 = auth_server w.
Proof.
  unfold load_credentials, pickle_load, open_read, path_exists, print, bind,
    try_except, gets, lift, ret, raise, log.
  simpl. destruct (Py.nonempty _); simpl.
  - destruct (json_loads _); simpl;
      [destruct (from_authorized_user_info _ _)|]; done.
  - case_bool_decide; simpl; [|done].
    destruct (files w !! "token.pickle") as [[]|]; done.
Qed.

(** X4.  Without the file [credentials.json] the local server flow is
    never run: when the credential that was loaded has to be authorized
    and cannot be refreshed, [get_calendar_service] raises, the
    authorization server is left as it was and no file is written.  The
    exception is "No credentials found..." when there is no inline
    client configuration either, and "Cannot run OAuth flow..." when a
    flow was built from the inline client configuration. *)
Theorem X4_no_flow_without_client_secrets_file (w w0 : world)
    (creds : option Credentials) :
  load_credentials w = (Return creds, w0) →
  needs_authorization creds = true → refreshable creds = None →
  files w !! "credentials.json" = None →
  ∃ e w',
    get_calendar_service w = (Raise e, w')
    ∧ (RunLocalServer ∉ new_calls w0 w')
    ∧ auth_server w' = auth_server w
    ∧ files w' = files w
    ∧ (Py.nonempty (GOOGLE_CREDENTIALS w) = None →
       e = Exn Exception
             ("No credentials found. Set GOOGLE_CREDENTIALS environment "
              +:+ "variable or provide credentials.json"))
    ∧ (∀ config credentials_data flow,
         Py.nonempty (GOOGLE_CREDENTIALS w) = Some config →
         json_loads config = Return credentials_data →
         from_client_config credentials_data SCOPES = Return flow →
         e = Exn Exception
               ("Cannot run OAuth flow in production without local "
                +:+ "credentials.json")).
Proof.
  intros Hload Hneeds Hrefr Hfile.
  destruct (load_credentials_frame _ _ _ Hload) as [Henv Hfiles].
  pose proof (load_credentials_auth_server w) as Hauth.
  rewrite Hload in Hauth. simpl in Hauth.
  unfold get_calendar_service. rewrite (bind_Return _ _ _ _ _ Hload).
  unfold authorize. rewrite Hneeds, Hrefr. clear Hload.
  destruct w0 as [env0 files0 today0 auth0 cal0 calls0]. simpl in *. subst.
  unfold load_flow, path_exists, open_read, bind, gets, log, lift, raise,
    record, new_calls, GOOGLE_CREDENTIALS. simpl.
  destruct (Py.nonempty (environ w !! "GOOGLE_CREDENTIALS"))
    as [config|]; simpl.
  - destruct (json_loads config) as [credentials_data|e1] eqn:Hj; simpl;
      [destruct (from_client_config credentials_data SCOPES) as [flow|e2]
         eqn:Hf; simpl; rewrite ?Hfile; simpl|];
      eexists _, _; (split; [reflexivity|]); simpl;
      rewrite ?drop_app_length, ?drop_all;
      (split; [rewrite ?elem_of_cons, ?elem_of_nil; naive_solver|]);
      (split; [done|]); (split; [done|]); (split; [done|]);
      intros ??? [= <-] ??; congruence.
  - rewrite Hfile. simpl. eexists _, _. split; [reflexivity|]. simpl.
    rewrite drop_app_length.
    split; [rewrite ?elem_of_cons, ?elem_of_nil; naive_solver|].
    done.
Qed.

(** X5.  A loaded credential that is valid is used as it is: the
    service is built from it and nothing else happens.  From the start
    of [get_calendar_service] to its end the authorization server is
    not called and is left as it was, and no file is written. *)
Theorem X5_valid_credential_used_as_is (w w0 : world) (c : Credentials) :
  load_credentials w = (Return (Some c), w0) →
  valid c = true →
  get_calendar_service w = (build (Some c), record w0 [Build])
  ∧ authorization_calls (new_calls w (get_calendar_service w).2) = []
  ∧ auth_server (get_calendar_service w).2 = auth_server w
  ∧ files (get_calendar_service w).2 = files w.
Proof.
  intros Hload Hvalid.
  assert (Hsvc : get_calendar_service w
                 = (build (Some c), record w0 [Build])).
  { unfold get_calendar_service. rewrite (bind_Return _ _ _ _ _ Hload).
    unfold authorize. simpl. rewrite Hvalid. simpl.
    unfold service_build, bind, ret, log, lift. simpl. done. }
  split; [done|]. rewrite Hsvc. simpl.
  destruct (load_credentials_contacts w) as (l & Hl & Hn).
  pose proof (load_credentials_auth_server w) as Ha.
  pose proof (load_credentials_frame _ _ _ Hload) as [_ Hf].
  rewrite Hload in Hl, Ha. simpl in Hl, Ha.
  split; [|done].
  unfold new_calls, authorization_calls. simpl.
  rewrite Hl, <- app_assoc, drop_app_length, filter_app.
  assert (Hnil : filter (λ c, authorization_call c = true) l = [])
    by (apply length_zero_iff_nil; lia).
  by rewrite Hnil.
Qed.

(** X6.  A refresh that fails is not retried and the flow is not tried
    in its place: the exception of the refresh is the exception of
    [get_calendar_service], the refresh is the last call made, and no
    service is built. *)
Theorem X6_refresh_failure_propagates (w w0 : world)
    (creds : option Credentials) (c : Credentials) (e : exn)
    (a : AuthServer) :
  load_credentials w = (Return creds, w0) →
  needs_authorization creds = true →
  refreshable creds = Some c →
  refresh c (auth_server w0) = (Raise e, a) →
  get_calendar_service w
  = (Raise e,
     World (environ w0) (files w0) (today w0) a (calendar w0)
           (calls w0 ++ [Refresh]))
  ∧ files w0 = files w.
Proof.
  intros Hload Hneeds Hrefr Hfail.
  split; [|by apply (load_credentials_frame _ _ _ Hload)].
  unfold get_calendar_service. rewrite (bind_Return _ _ _ _ _ Hload).
  unfold authorize. rewrite Hneeds, Hrefr.
  unfold creds_refresh, bind, log, on_auth_server. simpl. by rewrite Hfail.
Qed.

(** X7.  Whatever the route and the request, the environment and the
    clock are left as they were, and the token file is the only local
    file that may have changed. *)
Theorem X7_views_keep_environment_and_files (r : route) (req : request)
    (w : world) (path : string) :
  environ (view r req w).2 = environ w
  ∧ today (view r req w).2 = today w
  ∧ (path = "token.pickle"
     ∨ files (view r req w).2 !! path = files w !! path).
Proof.
  destruct (local_step_view r req w) as (Henv & Htoday & Hfiles).
  split; [done|]. split; [done|].
  destruct (decide (path = "token.pickle")); [by left | right; auto].
Qed.

End Authorization.

(** ** Listing and searching *)

Section Listing.
Context `{L : Collaborators}.

Lemma for_each_length {A B} (f : A → result B) (l : list A) (l' : list B) :
  for_each f l = Return l' → length l' = length l.
Proof.
  intros H. apply for_each_Forall2 in H. by apply Forall2_length in H.
Qed.

Lemma for_each_Raise {A B} (f : A → result B) (l : list A) (x : A) (e : exn) :
  x ∈ l → f x = Raise e → ∃ e', for_each f l = Raise e'.
Proof.
  intros Hx Hfx. induction l as [|y l IH]; [by apply elem_of_nil in Hx|].
  simpl. apply elem_of_cons in Hx as [<- | Hx].
  - rewrite Hfx. simpl. eauto.
  - destruct (f y); simpl; [|eauto].
    destruct (IH Hx) as [e' ->]. simpl. eauto.
Qed.

(** The search once the service is obtained and the query is not empty:
    one list request, then the mapping of its answer. *)
Lemma search_events_run (req : request) (w w1 : world) (service : Service)
    (query : string) :
  headers req !! "X-API-Key" = Some (API_KEY w) →
  get_calendar_service w = (Return service, w1) →
  Py.nonempty (args req !! "query") = Some query →
  search_events req w
  = (match
       fs ← (events_result ← events_list service
               {| calendarId := "primary"; timeMin := None; timeMax := None;
                  maxResults := 25; singleEvents := true;
                  orderBy := "startTime"; q := Some query |} (calendar w);
             format_events events_result);
       Return (dict [("success", JBool true); ("events", JArr fs);
                     ("count", JNum (Z.of_nat (length fs)));
                     ("query", JStr query)], 200)
     with
     | Return resp => Return resp
     | Raise e => Return (error_envelope (exn_str e) 500)
     end%R,
     record w1
       [EventsList
          {| calendarId := "primary"; timeMin := None; timeMax := None;
             maxResults := 25; singleEvents := true;
             orderBy := "startTime"; q := Some query |}]).
Proof.
  intros Hkey Hsvc Hq.
  assert (Hcal : calendar w1 = calendar w)
    by apply (get_calendar_service_frame _ _ _ Hsvc).
  unfold search_events. rewrite require_api_key_accept by done.
  unfold try_except, search_events_body.
  rewrite (bind_Return _ _ _ _ _ Hsvc). rewrite nonempty_default, Hq.
  unfold service_events_list, bind, lift, log, gets, ret, internal_error.
  simpl. rewrite Hcal.
  destruct (events_list _ _ _) as [events_result|]; simpl; [|done].
  by destruct (format_events events_result).
Qed.

(** X8.  Once the service is obtained, a [days] parameter on which
    [int] raises, a date on which [strptime] raises, and a date and a
    number of days whose sum is not a date of the years 1 to 9999 are
    each answered with status 500 and the text of the exception, in the
    world [get_calendar_service] left: no list request is made.  The
    number of days is read before the date. *)
Theorem X8_list_parameter_errors (req : request) (w w1 : world)
    (service : Service) :
  headers req !! "X-API-Key" = Some (API_KEY w) →
  get_calendar_service w = (Return service, w1) →
  (∀ s e, args req !! "days" = Some s → int s = Raise e →
     get_events req w
     = (Return (dict [("success", JBool false);
                      ("error", JStr (exn_str e))], 500), w1))
  ∧ (∀ n e,
       match args req !! "days" with
       | Some s => int s
       | None => Return 7
       end = Return n →
       strptime (default (today w) (args req !! "date")) = Raise e →
       get_events req w
       = (Return (dict [("success", JBool false);
                        ("error", JStr (exn_str e))], 500), w1))
  ∧ (∀ n d,
       match args req !! "days" with
       | Some s => int s
       | None => Return 7
       end = Return n →
       strptime (default (today w) (args req !! "date")) = Return d →
       ¬ (0 < Datetime.toordinal d + n ≤ Datetime.MAXORDINAL) →
       ∃ msg,
         get_events req w
         = (Return (dict [("success", JBool false);
                          ("error", JStr msg)], 500), w1))
  ∧ calendar_calls (new_calls w w1) = []
  ∧ calendar w1 = calendar w.
Proof.
  intros Hkey Hsvc.
  pose proof (get_calendar_service_frame _ _ _ Hsvc) as Hstep.
  assert (Htoday : today w1 = today w) by apply Hstep.
  split; [|split; [|split;
    [|split; [by apply auth_step_calendar_calls | apply Hstep]]]].
  - intros s e Hs He.
    unfold get_events. rewrite require_api_key_accept by done.
    unfold try_except, get_events_body.
    rewrite (bind_Return _ _ _ _ _ Hsvc).
    unfold bind, lift, gets, ret, internal_error. simpl.
    by rewrite Hs, He.
  - intros n e Hn He.
    unfold get_events. rewrite require_api_key_accept by done.
    unfold try_except, get_events_body.
    rewrite (bind_Return _ _ _ _ _ Hsvc).
    unfold bind, lift, gets, ret, internal_error. simpl.
    by rewrite Htoday, Hn, He.
  - intros n d Hn Hd Hrange.
    destruct (DatetimeFacts.add_days_Raise d n Hrange) as [msg Hadd].
    exists msg. by apply (get_events_overflow req w w1 service d n).
Qed.

(** X9.  In a 200 answer of the list and of the search, [count] is the
    number of events in [events], which is the number of items in the
    provider's answer. *)
Theorem X9_count_is_number_of_items :
  (∀ req w body,
     (get_events req w).1 = Return (body, 200) →
     ∃ service a events_result fs,
       events_list service a (calendar w) = Return events_result
       ∧ body = dict [("success", JBool true); ("events", JArr fs);
                      ("count", JNum (Z.of_nat (length fs)))]
       ∧ ∀ r items, events_result = JObj r →
           r !! "items" = Some (JArr items) →
           length fs = length items)
  ∧ (∀ req w body,
       (search_events req w).1 = Return (body, 200) →
       ∃ service a events_result fs query,
         events_list service a (calendar w) = Return events_result
         ∧ body = dict [("success", JBool true); ("events", JArr fs);
                        ("count", JNum (Z.of_nat (length fs)));
                        ("query", JStr query)]
         ∧ ∀ r items, events_result = JObj r →
             r !! "items" = Some (JArr items) →
             length fs = length items).
Proof.
  assert (Hlen : ∀ events_result fs r items,
            format_events events_result = Return fs →
            events_result = JObj r → r !! "items" = Some (JArr items) →
            length fs = length items).
  { intros events_result fs r items Hfs -> Hitems.
    unfold format_events in Hfs. simpl in Hfs. rewrite Hitems in Hfs.
    by apply for_each_length in Hfs. }
  split.
  - intros req w body Hok.
    destruct (get_events_200 _ _ _ Hok)
      as (service & a & events_result & fs & Hlist & Hfs & ->).
    exists service, a, events_result, fs. eauto.
  - intros req w body Hok.
    destruct (search_events_200 _ _ _ Hok)
      as (service & a & events_result & fs & query & Hlist & Hfs & ->).
    exists service, a, events_result, fs, query. eauto.
Qed.

(** X10.  One item that cannot be mapped fails the whole search: if the
    provider's items contain an item on which the mapping raises (an
    event without [id], say), the answer is status 500 and no event is
    returned. *)
Theorem X10_one_bad_item_fails_the_search (req : request) (w w1 : world)
    (service : Service) (query : string) (r : gmap string json)
    (items : list json) (item : json) (e0 : exn) :
  headers req !! "X-API-Key" = Some (API_KEY w) →
  get_calendar_service w = (Return service, w1) →
  Py.nonempty (args req !! "query") = Some query →
  events_list service
    {| calendarId := "primary"; timeMin := None; timeMax := None;
       maxResults := 25; singleEvents := true; orderBy := "startTime";
       q := Some query |} (calendar w) = Return (JObj r) →
  r !! "items" = Some (JArr items) →
  item ∈ items →
  format_event item = Raise e0 →
  ∃ msg,
    (search_events req w).1
    = Return (dict [("success", JBool false); ("error", JStr msg)], 500).
Proof.
  intros Hkey Hsvc Hq Hlist Hitems Hitem Hbad.
  rewrite (search_events_run req w w1 service query) by done.
  rewrite Hlist. simpl. unfold format_events. simpl. rewrite Hitems. simpl.
  destruct (for_each_Raise format_event items item e0 Hitem Hbad)
    as [e' ->].
  simpl. eauto.
Qed.

(** X11.  A search with a query that is not empty makes one call on the
    calendar: a list of the calendar [primary] filtered by the query,
    without time bounds, expanded into single events, ordered by start
    time and capped at 25 results.  The calendar is left as it was. *)
Theorem X11_search_request (req : request) (w w1 : world)
    (service : Service) (query : string) :
  headers req !! "X-API-Key" = Some (API_KEY w) →
  get_calendar_service w = (Return service, w1) →
  Py.nonempty (args req !! "query") = Some query →
  calendar_calls (new_calls w (search_events req w).2)
  = [EventsList
       {| calendarId := "primary"; timeMin := None; timeMax := None;
          maxResults := 25; singleEvents := true; orderBy := "startTime";
          q := Some query |}]
  ∧ calendar (search_events req w).2 = calendar w.
Proof.
  intros Hkey Hsvc Hq.
  pose proof (get_calendar_service_frame _ _ _ Hsvc) as Hstep.
  rewrite (search_events_run req w w1 service query) by done. simpl.
  split; [|apply Hstep].
  by erewrite (calendar_calls_after w w1 _ [EventsList _] Hstep).
Qed.

(** X12.  When the provider's answer has no [items], or an empty list
    of items, the search answers 200 with no events and [count] 0. *)
Theorem X12_no_items_is_an_empty_result (req : request) (w w1 : world)
    (service : Service) (query : string) (r : gmap string json) :
  headers req !! "X-API-Key" = Some (API_KEY w) →
  get_calendar_service w = (Return service, w1) →
  Py.nonempty (args req !! "query") = Some query →
  events_list service
    {| calendarId := "primary"; timeMin := None; timeMax := None;
       maxResults := 25; singleEvents := true; orderBy := "startTime";
       q := Some query |} (calendar w) = Return (JObj r) →
  r !! "items" = None ∨ r !! "items" = Some (JArr []) →
  (search_events req w).1
  = Return (dict [("success", JBool true); ("events", JArr []);
                  ("count", JNum 0); ("query", JStr query)], 200).
Proof.
  intros Hkey Hsvc Hq Hlist Hitems.
  rewrite (search_events_run req w w1 service query) by done.
  rewrite Hlist. simpl. unfold format_events. simpl.
  by destruct Hitems as [-> | ->].
Qed.

End Listing.

(** ** Creating and updating *)

Section Writing.
Context `{L : Collaborators}.

(** X13.  Applying the same body twice changes nothing more: the event
    [update_event] sends back is a fixed point of the update. *)
Theorem X13_update_is_idempotent (ev ev' d : gmap string json) :
  updated_event (JObj ev) (JObj d) = Return (JObj ev') →
  updated_event (JObj ev') (JObj d) = Return (JObj ev').
Proof.
  rewrite !updated_event_eq. cbv zeta. intros [= <-]. do 2 f_equal.
  unfold set_if.
  destruct (d !! "title"), (d !! "description"), (d !! "location"),
    (d !! "date"), (d !! "time");
    apply map_eq; intros k; rewrite ?lookup_insert;
    repeat case_decide; simplify_eq; done.
Qed.

(** X14.  [update_event] rebuilds [start] and [end] by the rule of
    [create_event]: for a body with [date] and [time], the two views
    put the same [start] and the same [end] in the event they send. *)
Theorem X14_update_dates_as_create (ev d : gmap string json)
    (date time : json) :
  d !! "date" = Some date → d !! "time" = Some time →
  ∃ created updated,
    new_event (JObj d) = Return (JObj created)
    ∧ updated_event (JObj ev) (JObj d) = Return (JObj updated)
    ∧ is_Some (created !! "start")
    ∧ created !! "start" = updated !! "start"
    ∧ created !! "end" = updated !! "end".
Proof.
  intros Hd Ht. eexists _, _.
  split; [apply new_event_eq|]. split; [apply updated_event_eq|].
  cbv zeta. rewrite Hd, Ht.
  rewrite !lookup_insert_eq.
  rewrite !(lookup_insert_ne _ "end" "start") by done.
  rewrite !lookup_insert_eq. eauto.
Qed.

(** X15.  An update that cannot be completed changes nothing.  When
    [request.json] raises, the answer is 500 and the calendar is not
    called.  When the fetch raises, or when the body cannot be applied
    to the fetched event, the answer is 500, the fetch is the only call
    on the calendar, and the calendar is what it was. *)
Theorem X15_failed_update_changes_nothing (event_id : string)
    (req : request) (w w1 : world) (service : Service) :
  headers req !! "X-API-Key" = Some (API_KEY w) →
  get_calendar_service w = (Return service, w1) →
  (∀ e, body req = Raise e →
     update_event event_id req w
     = (Return (dict [("success", JBool false);
                      ("error", JStr (exn_str e))], 500), w1))
  ∧ (∀ data e, body req = Return data →
       events_get service "primary" event_id (calendar w) = Raise e →
       update_event event_id req w
       = (Return (dict [("success", JBool false);
                        ("error", JStr (exn_str e))], 500),
          record w1 [EventsGet "primary" event_id]))
  ∧ (∀ data event e, body req = Return data →
       events_get service "primary" event_id (calendar w) = Return event →
       updated_event event data = Raise e →
       update_event event_id req w
       = (Return (dict [("success", JBool false);
                        ("error", JStr (exn_str e))], 500),
          record w1 [EventsGet "primary" event_id]))
  ∧ calendar w1 = calendar w.
Proof.
  intros Hkey Hsvc.
  assert (Hcal : calendar w1 = calendar w)
    by apply (get_calendar_service_frame _ _ _ Hsvc).
  unfold update_event. rewrite require_api_key_accept by done.
  unfold try_except, update_event_body.
  rewrite (bind_Return _ _ _ _ _ Hsvc).
  unfold service_events_get, bind, lift, log, gets, ret, internal_error.
  simpl. rewrite Hcal.
  split; [|split; [|split]]; [| | |done].
  - by intros e ->.
  - by intros data e -> ->.
  - by intros data event e -> -> ->.
Qed.

(** X16.  [create_event] calls the calendar exactly when the body is a
    JSON object: the event built from an object is inserted, and for any
    other body, or when [request.json] raises, the answer is 500 and the
    calendar is not called. *)
Theorem X16_create_needs_an_object (req : request) (w w1 : world)
    (service : Service) :
  headers req !! "X-API-Key" = Some (API_KEY w) →
  get_calendar_service w = (Return service, w1) →
  (∀ e, body req = Raise e →
     create_event req w
     = (Return (dict [("success", JBool false);
                      ("error", JStr (exn_str e))], 500), w1))
  ∧ (∀ data, body req = Return data → (∀ d, data ≠ JObj d) →
       ∃ msg,
         create_event req w
         = (Return (dict [("success", JBool false);
                          ("error", JStr msg)], 500), w1))
  ∧ (∀ d, body req = Return (JObj d) →
       ∃ event,
         new_event (JObj d) = Return event
         ∧ calendar_calls (new_calls w (create_event req w).2)
           = [EventsInsert "primary" event]).
Proof.
  intros Hkey Hsvc. split; [|split].
  - intros e Hbody.
    unfold create_event. rewrite require_api_key_accept by done.
    unfold try_except, create_event_body.
    rewrite (bind_Return _ _ _ _ _ Hsvc).
    unfold bind, lift. by rewrite Hbody.
  - intros data Hbody Hdata.
    unfold create_event. rewrite require_api_key_accept by done.
    unfold try_except, create_event_body.
    rewrite (bind_Return _ _ _ _ _ Hsvc).
    unfold bind, lift. rewrite Hbody. simpl.
    destruct data as [| | | | |d]; simpl; eauto.
    by destruct (Hdata d).
  - intros d Hbody. eexists. split; [apply new_event_eq|].
    eapply create_event_inserts; eauto using new_event_eq.
Qed.

(** X17.  The event [create_event] builds has the keys [summary],
    [description] and [location], and [start] and [end] when the body
    has a [date]; it has no other key.  A [time] or an [end_time]
    without a [date] is ignored, and no other key of the body is
    copied. *)
Theorem X17_created_event_keys (d : gmap string json) :
  ∃ ev : gmap string json,
    new_event (JObj d) = Return (JObj ev)
    ∧ dom ev
      = if d !! "date" is Some _
        then {["summary"; "description"; "location"; "start"; "end"]}
        else ({["summary"; "description"; "location"]} : gset string).
Proof.
  eexists. split; [apply new_event_eq|]. cbv zeta.
  destruct (d !! "date"), (d !! "time");
    rewrite ?dom_insert_L, dom_list_to_map_L; simpl; set_solver.
Qed.

(** X18.  An answer 500 to a create request does not mean that nothing
    was created: when the insert succeeds and the provider's answer has
    no [id], the answer is 500 and the calendar is the one the insert
    left. *)
Theorem X18_create_can_fail_after_the_insert (req : request)
    (w w1 : world) (service : Service) (data event : json)
    (created : gmap string json) (cal' : Calendar) :
  headers req !! "X-API-Key" = Some (API_KEY w) →
  get_calendar_service w = (Return service, w1) →
  body req = Return data →
  new_event data = Return event →
  events_insert service "primary" event (calendar w)
  = (Return (JObj created), cal') →
  created !! "id" = None →
  (create_event req w).1
  = Return (dict [("success", JBool false); ("error", JStr "'id'")], 500)
  ∧ calendar (create_event req w).2 = cal'.
Proof.
  intros Hkey Hsvc Hbody Hev Hins Hid.
  assert (Hcal : calendar w1 = calendar w)
    by apply (get_calendar_service_frame _ _ _ Hsvc).
  unfold create_event. rewrite require_api_key_accept by done.
  unfold try_except, create_event_body.
  rewrite (bind_Return _ _ _ _ _ Hsvc).
  unfold service_events_insert, bind, lift, log, on_calendar, ret.
  rewrite Hbody, Hev. simpl. rewrite Hcal, Hins. simpl.
  by rewrite Hid.
Qed.

End Writing.

(** ** Calls per request *)

Section BoundsOfTheModule.
Context `{L : Collaborators}.

Lemma get_calendar_service_contacts :
  at_most authorization_call 1 get_calendar_service.
Proof.
  unfold get_calendar_service, load_credentials, authorize, load_flow,
    service_build, creds_refresh, flow_run_local_server, pickle_dump,
    pickle_load, open_read, path_exists, print.
  repeat at_most_step.
Qed.

Lemma get_calendar_service_no_calendar_call (n : nat) :
  at_most calendar_call n get_calendar_service.
Proof.
  unfold get_calendar_service, load_credentials, authorize, load_flow,
    service_build, creds_refresh, flow_run_local_server, pickle_dump,
    pickle_load, open_read, path_exists, print.
  repeat at_most_step.
Qed.

Lemma view_contacts (r : route) (req : request) :
  at_most authorization_call 1 (view r req).
Proof.
  destruct r; simpl;
    unfold get_events, create_event, update_event, delete_event,
      search_events, health_check, require_api_key, get_events_body,
      create_event_body, update_event_body, delete_event_body,
      search_events_body, internal_error, service_events_list,
      service_events_get, service_events_insert, service_events_update,
      service_events_delete;
    repeat at_most_step_with ltac:(apply get_calendar_service_contacts).
Qed.

Lemma view_calendar_calls (r : route) (req : request) :
  at_most calendar_call
    match r with
    | GET_health => 0
    | GET_events | GET_events_search | POST_events => 1
    | PUT_events _ | DELETE_events _ => 2
    end (view r req).
Proof.
  destruct r; simpl;
    unfold get_events, create_event, update_event, delete_event,
      search_events, health_check, require_api_key, get_events_body,
      create_event_body, update_event_body, delete_event_body,
      search_events_body, internal_error, service_events_list,
      service_events_get, service_events_insert, service_events_update,
      service_events_delete;
    repeat at_most_step_with
      ltac:(apply get_calendar_service_no_calendar_call).
Qed.

Lemma at_most_new_calls (count : call → bool) (n : nat) {A} (m : M A)
    (w : world) :
  at_most count n m →
  (length (filter (λ c, count c = true) (new_calls w (m w).2)) ≤ n)%nat
  ∧ calls w `prefix_of` calls (m w).2.
Proof.
  intros Hm. destruct (Hm w) as (l & Hl & Hn). unfold new_calls.
  rewrite Hl, drop_app_length. split; [done | by exists l].
Qed.

Lemma calendar_calls_filter (l : list call) :
  calendar_calls l = filter (λ c, calendar_call c = true) l.
Proof.
  unfold calendar_calls, calendar_call.
  induction l as [|c l IH]; [done|].
  rewrite !filter_cons, IH. by destruct (auth_call c).
Qed.

(** X19.  Obtaining the service reaches the authorization server at
    most once: one refresh or one run of the local server flow, never
    both and never twice; and so does every request as a whole. *)
Theorem X19_one_authorization_attempt (r : route) (req : request)
    (w : world) :
  (length (authorization_calls (new_calls w (get_calendar_service w).2))
   ≤ 1)%nat
  ∧ (length (authorization_calls (new_calls w (view r req w).2)) ≤ 1)%nat.
Proof.
  split.
  - apply (at_most_new_calls authorization_call 1 get_calendar_service w).
    apply get_calendar_service_contacts.
  - apply (at_most_new_calls authorization_call 1 (view r req) w).
    apply view_contacts.
Qed.

(** X20.  No call on the calendar is repeated: a request makes at most
    one call on the calendar on the list, search and create routes, at
    most two on the update and delete routes, and none on the health
    route; the log of calls only grows. *)
Theorem X20_calendar_calls_per_request (r : route) (req : request)
    (w : world) :
  (length (calendar_calls (new_calls w (view r req w).2))
   ≤ match r with
     | GET_health => 0
     | GET_events | GET_events_search | POST_events => 1
     | PUT_events _ | DELETE_events _ => 2
     end)%nat
  ∧ calls w `prefix_of` calls (view r req w).2.
Proof.
  rewrite calendar_calls_filter.
  apply (at_most_new_calls calendar_call _ (view r req) w).
  apply view_calendar_calls.
Qed.

End BoundsOfTheModule.

(** ** The statements on the double

    Each statement above is run on the in-memory double, and the
    statements that do not hold of the module in general are shown to
    fail there. *)

(** With nothing configured, a search without a query is answered 500:
    the service is sought before the query is looked at. *)
Lemma C2_counterexample :
  headers (Double.keyed "dev-key-for-local-testing" ∅ Double.no_body)
    !! "X-API-Key" = Some (API_KEY Double.bare)
  ∧ Py.nonempty
      (args (Double.keyed "dev-key-for-local-testing" ∅ Double.no_body)
         !! "query") = None
  ∧ (view GET_events_search
       (Double.keyed "dev-key-for-local-testing" ∅ Double.no_body)
       Double.bare).1
    = Return (dict [("success", JBool false);
                    ("error", JStr ("No credentials found. Set "
                       +:+ "GOOGLE_CREDENTIALS environment variable or "
                       +:+ "provide credentials.json"))], 500).
Proof. repeat split; reflexivity. Qed.

(** The same search on the development machine is answered 400. *)
Lemma C2_search_requires_query_witness :
  headers (Double.keyed "k" ∅ Double.no_body) !! "X-API-Key"
  = Some (API_KEY (Double.dev Double.fresh))
  ∧ Py.nonempty (args (Double.keyed "k" ∅ Double.no_body) !! "query") = None
  ∧ (search_events (Double.keyed "k" ∅ Double.no_body)
       (Double.dev Double.fresh)).1
    = Return (dict [("success", JBool false);
                    ("error", JStr "Query parameter required")], 400).
Proof.
  assert (H1 : headers (Double.keyed "k" ∅ Double.no_body) !! "X-API-Key"
               = Some (API_KEY (Double.dev Double.fresh))) by reflexivity.
  assert (H2 : Py.nonempty
                 (args (Double.keyed "k" ∅ Double.no_body) !! "query")
               = None) by reflexivity.
  split; [exact H1|]. split; [exact H2|].
  pose proof (proj1 (C2_search_requires_query _ _ H1 H2)) as H.
  change (get_calendar_service (Double.dev Double.fresh))
    with (Return (Some Double.fresh),
          record (Double.dev Double.fresh)
            [PathExists "token.pickle"; OpenRead "token.pickle"; Build]) in H.
  cbv beta iota in H. rewrite H. reflexivity.
Defined.


(** Moving the stand-up to another room: the event sent back, and stored,
    is the stand-up with its location replaced. *)
Lemma C4_update_overlays_present_fields_witness :
  headers (Double.keyed "k" ∅
             (Return (JObj {["location" := JStr "Room 2"]}))) !! "X-API-Key"
  = Some (API_KEY (Double.dev Double.fresh))
  ∧ calendar_calls
      (new_calls (Double.dev Double.fresh)
         (update_event "e1"
            (Double.keyed "k" ∅
               (Return (JObj {["location" := JStr "Room 2"]})))
            (Double.dev Double.fresh)).2)
    = [EventsGet "primary" "e1";
       EventsUpdate "primary" "e1"
         (JObj (<["location" := JStr "Room 2"]>
                  (list_to_map
                     [("id", JStr "e1"); ("summary", JStr "Standup");
                      ("description", JStr "Daily sync");
                      ("location", JStr "Room 1");
                      ("start", JObj (list_to_map
                         [("dateTime", JStr "2025-01-10T09:00:00-05:00");
                          ("timeZone", JStr "America/New_York")]));
                      ("end", JObj (list_to_map
                         [("dateTime", JStr "2025-01-10T09:15:00-05:00");
                          ("timeZone", JStr "America/New_York")]))])))]
  ∧ calendar
      (update_event "e1"
         (Double.keyed "k" ∅
            (Return (JObj {["location" := JStr "Room 2"]})))
         (Double.dev Double.fresh)).2 !! "e1"
    = Some
        (JObj (list_to_map
           [("id", JStr "e1"); ("summary", JStr "Standup");
            ("description", JStr "Daily sync");
            ("location", JStr "Room 2");
            ("start", JObj (list_to_map
               [("dateTime", JStr "2025-01-10T09:00:00-05:00");
                ("timeZone", JStr "America/New_York")]));
            ("end", JObj (list_to_map
               [("dateTime", JStr "2025-01-10T09:15:00-05:00");
                ("timeZone", JStr "America/New_York")]))])).
Proof.
  assert (H1 : headers (Double.keyed "k" ∅
                 (Return (JObj {["location" := JStr "Room 2"]})))
                 !! "X-API-Key"
               = Some (API_KEY (Double.dev Double.fresh))) by reflexivity.
  split; [exact H1|]. split; [|reflexivity].
  refine (proj2 (proj2 C4_update_overlays_present_fields)
            "e1" _ (Double.dev Double.fresh) _ (Some Double.fresh)
            (JObj {["location" := JStr "Room 2"]}) Double.standup _
            H1 _ _ _ _).
  - reflexivity.
  - reflexivity.
  - reflexivity.
  - exact (proj1 (proj2 C4_update_overlays_present_fields) _ _).
Defined.

(** The body [{date: "2025-01-10", time: "09:00"}]. *)
Lemma C5_create_event_dates_witness :
  ({["date" := JStr "2025-01-10"; "time" := JStr "09:00"]}
     : gmap string json) !! "date" = Some (JStr "2025-01-10")
  ∧ ({["date" := JStr "2025-01-10"; "time" := JStr "09:00"]}
       : gmap string json) !! "time" = Some (JStr "09:00")
  ∧ ∃ ev,
      @new_event Double.lib
        (JObj {["date" := JStr "2025-01-10"; "time" := JStr "09:00"]})
      = Return (JObj ev)
      ∧ ev !! "start"
        = Some (dict [("dateTime", JStr "2025-01-10T09:00:00");
                      ("timeZone", JStr "America/New_York")])
      ∧ ev !! "end" = ev !! "start".
Proof.
  assert (H1 : ({["date" := JStr "2025-01-10"; "time" := JStr "09:00"]}
                  : gmap string json) !! "date" = Some (JStr "2025-01-10"))
    by reflexivity.
  assert (H2 : ({["date" := JStr "2025-01-10"; "time" := JStr "09:00"]}
                  : gmap string json) !! "time" = Some (JStr "09:00"))
    by reflexivity.
  split; [exact H1|]. split; [exact H2|].
  destruct (proj1 (C5_create_event_dates (L := Double.lib)) _ _ _ H1 H2)
    as (ev & Hev & Hstart & Hend & Hsame).
  exists ev. split; [exact Hev|]. split; [exact Hstart|].
  apply Hsame. reflexivity.
Defined.

(** One day after the last day of the year 9999: both parameters are
    read, the addition raises, and no list request is made. *)
Lemma C6_counterexample :
  headers (Double.keyed "k" {["date" := "9999-12-31"; "days" := "1"]}
             Double.no_body) !! "X-API-Key"
  = Some (API_KEY (Double.dev Double.fresh))
  ∧ @strptime Double.lib "9999-12-31" = Return (Datetime.mk 9999 12 31)
  ∧ Datetime.valid (Datetime.mk 9999 12 31) = true
  ∧ @int Double.lib "1" = Return 1
  ∧ (get_calendar_service (Double.dev Double.fresh)).1
    = Return (Some Double.fresh)
  ∧ (view GET_events
       (Double.keyed "k" {["date" := "9999-12-31"; "days" := "1"]}
          Double.no_body)
       (Double.dev Double.fresh)).1
    = Return (dict [("success", JBool false);
                    ("error", JStr "date value out of range")], 500)
  ∧ calendar_calls
      (new_calls (Double.dev Double.fresh)
         (view GET_events
            (Double.keyed "k" {["date" := "9999-12-31"; "days" := "1"]}
               Double.no_body)
            (Double.dev Double.fresh)).2)
    = [].
Proof. repeat split; reflexivity. Qed.

(** Three days from 27 February 2024, across the leap day. *)
Lemma C6_list_window_witness :
  headers (Double.keyed "k" {["date" := "2024-02-27"; "days" := "3"]}
             Double.no_body) !! "X-API-Key"
  = Some (API_KEY (Double.dev Double.fresh))
  ∧ @strptime Double.lib "2024-02-27" = Return (Datetime.mk 2024 2 27)
  ∧ Datetime.valid (Datetime.mk 2024 2 27) = true
  ∧ @int Double.lib "3" = Return 3
  ∧ 0 < Datetime.toordinal (Datetime.mk 2024 2 27) + 3 ≤ Datetime.MAXORDINAL
  ∧ calendar_calls
      (new_calls (Double.dev Double.fresh)
         (get_events
            (Double.keyed "k" {["date" := "2024-02-27"; "days" := "3"]}
               Double.no_body)
            (Double.dev Double.fresh)).2)
    = [EventsList
         {| calendarId := "primary";
            timeMin := Some "2024-02-27T00:00:00Z";
            timeMax := Some "2024-03-01T00:00:00Z";
            maxResults := 50;
            singleEvents := true;
            orderBy := "startTime";
            q := None |}].
Proof.
  assert (H1 : headers (Double.keyed "k"
                 {["date" := "2024-02-27"; "days" := "3"]} Double.no_body)
                 !! "X-API-Key"
               = Some (API_KEY (Double.dev Double.fresh))) by reflexivity.
  assert (H2 : @strptime Double.lib "2024-02-27"
               = Return (Datetime.mk 2024 2 27)) by reflexivity.
  assert (Hv : Datetime.valid (Datetime.mk 2024 2 27) = true)
    by reflexivity.
  assert (H3 : @int Double.lib "3" = Return 3) by reflexivity.
  assert (H4 : 0 < Datetime.toordinal (Datetime.mk 2024 2 27) + 3
               ≤ Datetime.MAXORDINAL) by (split; [reflexivity | discriminate]).
  split; [exact H1|]. split; [exact H2|]. split; [exact Hv|].
  split; [exact H3|]. split; [exact H4|].
  exact (proj1 (proj1 (C6_list_window
    (Double.keyed "k" {["date" := "2024-02-27"; "days" := "3"]}
       Double.no_body)
    (Double.dev Double.fresh) _ (Some Double.fresh)
    (Datetime.mk 2024 2 27) 3 H1 eq_refl H2 Hv H3) H4)).
Defined.

(** An event whose summary the provider gives as [null]: the list
    answers 200 and the title of the event is null. *)
Lemma C7_counterexample :
  (∀ a, @events_list Double.lib (Some Double.fresh) a
          (calendar Double.unnamed)
        = Return (JObj {["items" := JArr [Double.nameless]]}))
  ∧ Py.get Double.nameless "summary" (JStr "No title") = Return JNull
  ∧ (get_events (Double.keyed "k" ∅ Double.no_body) Double.unnamed).1
    = Return (dict [("success", JBool true);
                    ("events",
                     JArr [dict [("id", JStr "e5"); ("title", JNull);
                                 ("start", JStr "2025-01-12");
                                 ("end", JStr "2025-01-13");
                                 ("description", JStr "");
                                 ("location", JStr "")]]);
                    ("count", JNum 1)], 200).
Proof. repeat split; reflexivity. Qed.

(** An all-day event without a summary. *)
Lemma C7_simplified_events_witness :
  ({["id" := JStr "e2";
     "start" := JObj {["date" := JStr "2025-01-20"]};
     "end" := JObj {["date" := JStr "2025-01-21"]}]}
     : gmap string json) !! "id" = Some (JStr "e2")
  ∧ ∃ f,
      format_event
        (JObj {["id" := JStr "e2";
                "start" := JObj {["date" := JStr "2025-01-20"]};
                "end" := JObj {["date" := JStr "2025-01-21"]}]})
      = Return (JObj f)
      ∧ f !! "id" = Some (JStr "e2")
      ∧ f !! "title" = Some (JStr "No title")
      ∧ f !! "start" = Some (JStr "2025-01-20")
      ∧ f !! "end" = Some (JStr "2025-01-21").
Proof.
  assert (H1 : ({["id" := JStr "e2";
                  "start" := JObj {["date" := JStr "2025-01-20"]};
                  "end" := JObj {["date" := JStr "2025-01-21"]}]}
                  : gmap string json) !! "id" = Some (JStr "e2"))
    by reflexivity.
  split; [exact H1|].
  destruct (proj1 (C7_simplified_events (L := Double.lib)) _
              {["date" := JStr "2025-01-20"]}
              {["date" := JStr "2025-01-21"]} _ H1 eq_refl eq_refl)
    as (f & title & Hf & Hid & Htitle & -> & _ & Hstart & Hend).
  exists f. repeat split; assumption.
Defined.

(** An inline token that does not parse, next to a token file with a good
    credential: the file is neither looked for nor read, and no service
    is obtained. *)
Lemma C8_counterexample :
  Py.nonempty (GOOGLE_TOKEN Double.misconfigured) = Some "{not json"
  ∧ is_Return (@json_loads Double.lib "{not json") = false
  ∧ files Double.misconfigured !! "token.pickle" = Some (Pickle Double.fresh)
  ∧ load_credentials Double.misconfigured
    = (Return None,
       record Double.misconfigured
         [Print ("Error loading token from environment: "
                 +:+ "Expecting property name enclosed in double quotes")])
  ∧ (get_calendar_service Double.misconfigured).1
    = Raise (Exn Exception
               ("No credentials found. Set GOOGLE_CREDENTIALS environment "
                +:+ "variable or provide credentials.json"))
  ∧ calls (get_calendar_service Double.misconfigured).2
    = [Print ("Error loading token from environment: "
              +:+ "Expecting property name enclosed in double quotes");
       PathExists "credentials.json"].
Proof. repeat split; reflexivity. Qed.

(** The same deployment: the failure is printed and the credential is
    absent.  On the deployment whose inline token parses, the
    credential is the one of the inline token and the token file, which
    holds another one, is not looked at. *)
Lemma C8_inline_token_parse_failure_witness :
  Py.nonempty (GOOGLE_TOKEN Double.misconfigured) = Some "{not json"
  ∧ @json_loads Double.lib "{not json"
    = Raise (Exn ValueError
               "Expecting property name enclosed in double quotes")
  ∧ load_credentials Double.misconfigured
    = (Return None,
       record Double.misconfigured
         [Print ("Error loading token from environment: "
                 +:+ "Expecting property name enclosed in double quotes")])
  ∧ Py.nonempty (GOOGLE_TOKEN Double.deployed) = Some Double.authorized_user
  ∧ is_Return (@json_loads Double.lib Double.authorized_user) = true
  ∧ files Double.deployed !! "token.pickle" = Some (Pickle Double.stale)
  ∧ load_credentials Double.deployed
    = (Return (Some Double.fresh), Double.deployed).
Proof.
  assert (H1 : Py.nonempty (GOOGLE_TOKEN Double.misconfigured)
               = Some "{not json") by reflexivity.
  assert (H2 : @json_loads Double.lib "{not json"
               = Raise (Exn ValueError
                   "Expecting property name enclosed in double quotes"))
    by reflexivity.
  assert (H3 : Py.nonempty (GOOGLE_TOKEN Double.deployed)
               = Some Double.authorized_user) by reflexivity.
  split; [exact H1|]. split; [exact H2|].
  split;
    [exact (proj1 (proj1 (C8_inline_token_parse_failure (L := Double.lib))
                     _ _ _ H1 (or_introl H2)))|].
  split; [exact H3|]. split; [reflexivity|]. split; [reflexivity|].
  exact (proj1 (proj2 (C8_inline_token_parse_failure (L := Double.lib)))
           Double.deployed _ _ Double.fresh H3 eq_refl eq_refl).
Defined.

(** An expired credential in the token file: the service is built from
    the refreshed credential, the file still holds the expired one, and
    no file was opened for writing. *)
Lemma C9_counterexample :
  load_credentials (Double.dev Double.stale)
  = (Return (Some Double.stale),
     record (Double.dev Double.stale)
       [PathExists "token.pickle"; OpenRead "token.pickle"])
  ∧ @valid Double.lib Double.stale = false
  ∧ (get_calendar_service (Double.dev Double.stale)).1
    = Return (Some (Double.issue 0 (Some "r0")))
  ∧ @valid Double.lib (Double.issue 0 (Some "r0")) = true
  ∧ files (get_calendar_service (Double.dev Double.stale)).2 !! "token.pickle"
    = Some (Pickle Double.stale)
  ∧ calls (get_calendar_service (Double.dev Double.stale)).2
    = [PathExists "token.pickle"; OpenRead "token.pickle"; Refresh; Build].
Proof. repeat split; reflexivity. Qed.

(** A first run with client secrets: the credential issued by the flow
    is the one in the token file afterwards. *)
Lemma C9_persists_acquired_credentials_witness :
  load_credentials Double.first_run
  = (Return None, record Double.first_run [PathExists "token.pickle"])
  ∧ @needs_authorization Double.lib None = true
  ∧ @refreshable Double.lib None = None
  ∧ (get_calendar_service Double.first_run).1
    = Return (Some (Double.issue 0 (Some "r")))
  ∧ ∃ c', @build Double.lib (Some c')
          = Return (Some (Double.issue 0 (Some "r")))
     ∧ files (get_calendar_service Double.first_run).2
       = <["token.pickle" := Pickle c']> (files Double.first_run).
Proof.
  assert (H1 : load_credentials Double.first_run
               = (Return None,
                  record Double.first_run [PathExists "token.pickle"]))
    by reflexivity.
  assert (H2 : @needs_authorization Double.lib None = true) by reflexivity.
  assert (H3 : @refreshable Double.lib None = None) by reflexivity.
  assert (H4 : get_calendar_service Double.first_run
               = (Return (Some (Double.issue 0 (Some "r"))),
                  World (environ Double.first_run)
                    (<["token.pickle" := Pickle (Double.issue 0 (Some "r"))]>
                       (files Double.first_run))
                    (today Double.first_run) 1%nat
                    (calendar Double.first_run)
                    [PathExists "token.pickle";
                     PathExists "credentials.json";
                     OpenRead "credentials.json";
                     PathExists "credentials.json";
                     RunLocalServer; OpenWrite "token.pickle"; Build]))
    by reflexivity.
  split; [exact H1|]. split; [exact H2|]. split; [exact H3|].
  split; [reflexivity|].
  destruct (proj1 (C9_persists_acquired_credentials (L := Double.lib)) _ _ _ _ _ H1 H2 H3 H4)
    as (flow & a & c' & _ & Hbuild & Hfiles).
  exists c'. split; [exact Hbuild|]. rewrite H4. exact Hfiles.
Defined.

(** Deleting the all-day event, which has no summary. *)
Lemma C10_default_titles_witness :
  headers (Double.keyed "k" ∅ Double.no_body) !! "X-API-Key"
  = Some (API_KEY (Double.dev Double.fresh))
  ∧ @events_get Double.lib (Some Double.fresh) "primary" "e2"
      (calendar (Double.dev Double.fresh))
    = Return Double.holiday
  ∧ (delete_event "e2" (Double.keyed "k" ∅ Double.no_body)
       (Double.dev Double.fresh)).1
    = Return (dict [("success", JBool true);
                    ("message",
                     JStr "Event 'Untitled Event' deleted successfully")],
              200).
Proof.
  assert (H1 : headers (Double.keyed "k" ∅ Double.no_body) !! "X-API-Key"
               = Some (API_KEY (Double.dev Double.fresh))) by reflexivity.
  assert (H2 : @events_get Double.lib (Some Double.fresh) "primary" "e2"
                 (calendar (Double.dev Double.fresh))
               = Return Double.holiday) by reflexivity.
  split; [exact H1|]. split; [exact H2|].
  refine (proj1 (C10_default_titles (L := Double.lib)) "e2" _ (Double.dev Double.fresh) _
            (Some Double.fresh) _ (JStr "") _ H1 _ H2 _ _);
    reflexivity.
Defined.

(** ** The further properties on the double *)

(** A list request with a wrong key. *)
Lemma X2_unauthorized_iff_wrong_key_witness :
  GET_events ≠ GET_health
  ∧ ((∃ body w',
        view GET_events (Double.keyed "guess" ∅ Double.no_body)
          (Double.dev Double.fresh) = (Return (body, 401), w'))
     ↔ headers (Double.keyed "guess" ∅ Double.no_body) !! "X-API-Key"
       ≠ Some (API_KEY (Double.dev Double.fresh))).
Proof.
  assert (H1 : GET_events ≠ GET_health) by done.
  split; [exact H1|].
  exact (X2_unauthorized_iff_wrong_key GET_events _ _ H1).
Defined.

(** A create request on a machine on which nothing is configured. *)
Lemma X3_no_service_no_calendar_witness :
  POST_events ≠ GET_health
  ∧ headers (Double.keyed "dev-key-for-local-testing" ∅ Double.no_body)
      !! "X-API-Key" = Some (API_KEY Double.bare)
  ∧ (get_calendar_service Double.bare).1
    = Raise (Exn Exception
               ("No credentials found. Set GOOGLE_CREDENTIALS environment "
                +:+ "variable or provide credentials.json"))
  ∧ (view POST_events
       (Double.keyed "dev-key-for-local-testing" ∅ Double.no_body)
       Double.bare).1
    = Return (dict [("success", JBool false);
                    ("error", JStr ("No credentials found. Set "
                       +:+ "GOOGLE_CREDENTIALS environment variable or "
                       +:+ "provide credentials.json"))], 500).
Proof.
  assert (H1 : POST_events ≠ GET_health) by done.
  assert (H2 : headers (Double.keyed "dev-key-for-local-testing" ∅
                          Double.no_body) !! "X-API-Key"
               = Some (API_KEY Double.bare)) by reflexivity.
  assert (H3 : get_calendar_service Double.bare
               = (Raise (Exn Exception
                    ("No credentials found. Set GOOGLE_CREDENTIALS "
                     +:+ "environment variable or provide credentials.json")),
                  record Double.bare [PathExists "token.pickle";
                                      PathExists "credentials.json"]))
    by reflexivity.
  split; [exact H1|]. split; [exact H2|]. split; [reflexivity|].
  by rewrite (proj1 (X3_no_service_no_calendar _ _ _ _ _ H1 H2 H3)).
Defined.

(** The machine on which nothing is configured. *)
Lemma X4_no_flow_without_client_secrets_file_witness :
  load_credentials Double.bare
  = (Return None, record Double.bare [PathExists "token.pickle"])
  ∧ @needs_authorization Double.lib None = true
  ∧ @refreshable Double.lib None = None
  ∧ files Double.bare !! "credentials.json" = None
  ∧ ∃ e w', get_calendar_service Double.bare = (Raise e, w')
            ∧ files w' = files Double.bare.
Proof.
  assert (H1 : load_credentials Double.bare
               = (Return None,
                  record Double.bare [PathExists "token.pickle"]))
    by reflexivity.
  assert (H2 : @needs_authorization Double.lib None = true) by reflexivity.
  assert (H3 : @refreshable Double.lib None = None) by reflexivity.
  assert (H4 : files Double.bare !! "credentials.json" = None)
    by reflexivity.
  split; [exact H1|]. split; [exact H2|]. split; [exact H3|].
  split; [exact H4|].
  destruct (X4_no_flow_without_client_secrets_file _ _ _ H1 H2 H3 H4)
    as (e & w' & Hsvc & _ & _ & Hfiles & _).
  exists e, w'. split; [exact Hsvc | exact Hfiles].
Defined.

(** The development machine with a good token. *)
Lemma X5_valid_credential_used_as_is_witness :
  load_credentials (Double.dev Double.fresh)
  = (Return (Some Double.fresh),
     record (Double.dev Double.fresh)
       [PathExists "token.pickle"; OpenRead "token.pickle"])
  ∧ @valid Double.lib Double.fresh = true
  ∧ calls (get_calendar_service (Double.dev Double.fresh)).2
    = [PathExists "token.pickle"; OpenRead "token.pickle"; Build].
Proof.
  assert (H1 : load_credentials (Double.dev Double.fresh)
               = (Return (Some Double.fresh),
                  record (Double.dev Double.fresh)
                    [PathExists "token.pickle"; OpenRead "token.pickle"]))
    by reflexivity.
  assert (H2 : @valid Double.lib Double.fresh = true) by reflexivity.
  split; [exact H1|]. split; [exact H2|].
  by rewrite (proj1 (X5_valid_credential_used_as_is _ _ _ H1 H2)).
Defined.

(** An expired token and an authorization server that rejects the
    refresh. *)
Lemma X6_refresh_failure_propagates_witness :
  load_credentials (Faulty.dev Double.stale)
  = (Return (Some Double.stale),
     record (Faulty.dev Double.stale)
       [PathExists "token.pickle"; OpenRead "token.pickle"])
  ∧ @needs_authorization Faulty.lib (Some Double.stale) = true
  ∧ @refreshable Faulty.lib (Some Double.stale) = Some Double.stale
  ∧ (get_calendar_service (Faulty.dev Double.stale)).1
    = Raise (Exn LibraryError
               "invalid_grant: Token has been expired or revoked.")
  ∧ calls (get_calendar_service (Faulty.dev Double.stale)).2
    = [PathExists "token.pickle"; OpenRead "token.pickle"; Refresh].
Proof.
  assert (H1 : load_credentials (Faulty.dev Double.stale)
               = (Return (Some Double.stale),
                  record (Faulty.dev Double.stale)
                    [PathExists "token.pickle"; OpenRead "token.pickle"]))
    by reflexivity.
  assert (H2 : @needs_authorization Faulty.lib (Some Double.stale) = true)
    by reflexivity.
  assert (H3 : @refreshable Faulty.lib (Some Double.stale)
               = Some Double.stale) by reflexivity.
  split; [exact H1|]. split; [exact H2|]. split; [exact H3|].
  rewrite (proj1 (X6_refresh_failure_propagates (L := Faulty.lib)
                    _ _ _ _ _ _ H1 H2 H3 eq_refl)).
  split; reflexivity.
Defined.

(** A list request whose [days] is not a number. *)
Lemma X8_list_parameter_errors_witness :
  headers (Double.keyed "k" {["days" := "week"]} Double.no_body)
    !! "X-API-Key" = Some (API_KEY (Double.dev Double.fresh))
  ∧ args (Double.keyed "k" {["days" := "week"]} Double.no_body) !! "days"
    = Some "week"
  ∧ is_Return (@int Double.lib "week") = false
  ∧ (get_events (Double.keyed "k" {["days" := "week"]} Double.no_body)
       (Double.dev Double.fresh)).1
    = Return (dict [("success", JBool false);
                    ("error",
                     JStr "invalid literal for int() with base 10: 'week'")],
              500).
Proof.
  assert (H1 : headers (Double.keyed "k" {["days" := "week"]}
                          Double.no_body) !! "X-API-Key"
               = Some (API_KEY (Double.dev Double.fresh))) by reflexivity.
  assert (H2 : args (Double.keyed "k" {["days" := "week"]} Double.no_body)
                 !! "days" = Some "week") by reflexivity.
  split; [exact H1|]. split; [exact H2|]. split; [reflexivity|].
  by rewrite (proj1 (X8_list_parameter_errors _ (Double.dev Double.fresh)
                       _ (Some Double.fresh) H1 eq_refl) _ _ H2 eq_refl).
Defined.

(** The list of the development machine's two events. *)
Lemma X9_count_is_number_of_items_witness :
  ∃ body,
    (get_events (Double.keyed "k" ∅ Double.no_body)
       (Double.dev Double.fresh)).1 = Return (body, 200)
    ∧ ∃ fs, body = dict [("success", JBool true); ("events", JArr fs);
                         ("count", JNum (Z.of_nat (length fs)))].
Proof.
  assert (∃ body,
            (get_events (Double.keyed "k" ∅ Double.no_body)
               (Double.dev Double.fresh)).1 = Return (body, 200))
    as [body Hok] by (eexists; reflexivity).
  exists body. split; [exact Hok|].
  destruct (proj1 (X9_count_is_number_of_items (L := Double.lib))
              _ _ _ Hok)
    as (service & a & events_result & fs & _ & Hbody & _).
  exists fs. exact Hbody.
Defined.

(** A search over a calendar that holds an event without [id]. *)
Lemma X10_one_bad_item_fails_the_search_witness :
  headers (Double.keyed "k" {["query" := "sync"]} Double.no_body)
    !! "X-API-Key" = Some (API_KEY Double.damaged)
  ∧ Py.nonempty
      (args (Double.keyed "k" {["query" := "sync"]} Double.no_body)
         !! "query") = Some "sync"
  ∧ format_event (JObj {["summary" := JStr "?"]})
    = Raise (Exn KeyError "'id'")
  ∧ ∃ msg,
      (search_events (Double.keyed "k" {["query" := "sync"]} Double.no_body)
         Double.damaged).1
      = Return (dict [("success", JBool false); ("error", JStr msg)], 500).
Proof.
  assert (H1 : headers (Double.keyed "k" {["query" := "sync"]}
                          Double.no_body) !! "X-API-Key"
               = Some (API_KEY Double.damaged)) by reflexivity.
  assert (H2 : Py.nonempty
                 (args (Double.keyed "k" {["query" := "sync"]}
                          Double.no_body) !! "query") = Some "sync")
    by reflexivity.
  assert (H3 : format_event (JObj {["summary" := JStr "?"]})
               = Raise (Exn KeyError "'id'")) by reflexivity.
  split; [exact H1|]. split; [exact H2|]. split; [exact H3|].
  exact (X10_one_bad_item_fails_the_search (L := Double.lib)
              (Double.keyed "k" {["query" := "sync"]} Double.no_body)
              Double.damaged _ (Some Double.fresh) "sync"
              _ [JObj {["summary" := JStr "?"]}; Double.standup]
              (JObj {["summary" := JStr "?"]}) _
              H1 eq_refl H2 eq_refl eq_refl
              ltac:(by left) H3).
Defined.

(** A search for "sync" on the development machine. *)
Lemma X11_search_request_witness :
  headers (Double.keyed "k" {["query" := "sync"]} Double.no_body)
    !! "X-API-Key" = Some (API_KEY (Double.dev Double.fresh))
  ∧ Py.nonempty
      (args (Double.keyed "k" {["query" := "sync"]} Double.no_body)
         !! "query") = Some "sync"
  ∧ calendar_calls
      (new_calls (Double.dev Double.fresh)
         (search_events
            (Double.keyed "k" {["query" := "sync"]} Double.no_body)
            (Double.dev Double.fresh)).2)
    = [EventsList
         {| calendarId := "primary"; timeMin := None; timeMax := None;
            maxResults := 25; singleEvents := true;
            orderBy := "startTime"; q := Some "sync" |}].
Proof.
  assert (H1 : headers (Double.keyed "k" {["query" := "sync"]}
                          Double.no_body) !! "X-API-Key"
               = Some (API_KEY (Double.dev Double.fresh))) by reflexivity.
  assert (H2 : Py.nonempty
                 (args (Double.keyed "k" {["query" := "sync"]}
                          Double.no_body) !! "query") = Some "sync")
    by reflexivity.
  split; [exact H1|]. split; [exact H2|].
  exact (proj1 (X11_search_request _ (Double.dev Double.fresh) _
                  (Some Double.fresh) "sync" H1 eq_refl H2)).
Defined.

(** A search on an empty calendar. *)
Lemma X12_no_items_is_an_empty_result_witness :
  headers (Double.keyed "k" {["query" := "sync"]} Double.no_body)
    !! "X-API-Key" = Some (API_KEY Double.quiet)
  ∧ Py.nonempty
      (args (Double.keyed "k" {["query" := "sync"]} Double.no_body)
         !! "query") = Some "sync"
  ∧ (search_events (Double.keyed "k" {["query" := "sync"]} Double.no_body)
       Double.quiet).1
    = Return (dict [("success", JBool true); ("events", JArr []);
                    ("count", JNum 0); ("query", JStr "sync")], 200).
Proof.
  assert (H1 : headers (Double.keyed "k" {["query" := "sync"]}
                          Double.no_body) !! "X-API-Key"
               = Some (API_KEY Double.quiet)) by reflexivity.
  assert (H2 : Py.nonempty
                 (args (Double.keyed "k" {["query" := "sync"]}
                          Double.no_body) !! "query") = Some "sync")
    by reflexivity.
  split; [exact H1|]. split; [exact H2|].
  exact (X12_no_items_is_an_empty_result (L := Double.lib)
           _ Double.quiet _ (Some Double.fresh) "sync" _
           H1 eq_refl H2 eq_refl (or_intror eq_refl)).
Defined.

(** A new title and a new time for an event that has a location. *)
Lemma X13_update_is_idempotent_witness :
  ∃ ev' : gmap string json,
    @updated_event Double.lib
      (JObj {["summary" := JStr "Standup"; "location" := JStr "Room 1"]})
      (JObj {["title" := JStr "Daily"; "date" := JStr "2025-01-10";
              "time" := JStr "09:30"]})
    = Return (JObj ev')
    ∧ @updated_event Double.lib (JObj ev')
        (JObj {["title" := JStr "Daily"; "date" := JStr "2025-01-10";
                "time" := JStr "09:30"]})
      = Return (JObj ev').
Proof.
  assert (∃ ev' : gmap string json,
            @updated_event Double.lib
              (JObj {["summary" := JStr "Standup";
                      "location" := JStr "Room 1"]})
              (JObj {["title" := JStr "Daily"; "date" := JStr "2025-01-10";
                      "time" := JStr "09:30"]})
            = Return (JObj ev')) as [ev' Hev'] by (eexists; reflexivity).
  exists ev'. split; [exact Hev'|].
  exact (X13_update_is_idempotent _ _ _ Hev').
Defined.

(** The body [{date: "2025-01-10", time: "09:00"}] in a create and in an
    update of the stand-up. *)
Lemma X14_update_dates_as_create_witness :
  ({["date" := JStr "2025-01-10"; "time" := JStr "09:00"]}
     : gmap string json) !! "date" = Some (JStr "2025-01-10")
  ∧ ({["date" := JStr "2025-01-10"; "time" := JStr "09:00"]}
       : gmap string json) !! "time" = Some (JStr "09:00")
  ∧ ∃ created updated : gmap string json,
      @new_event Double.lib
        (JObj {["date" := JStr "2025-01-10"; "time" := JStr "09:00"]})
      = Return (JObj created)
      ∧ @updated_event Double.lib (JObj {["summary" := JStr "Standup"]})
          (JObj {["date" := JStr "2025-01-10"; "time" := JStr "09:00"]})
        = Return (JObj updated)
      ∧ created !! "start" = updated !! "start"
      ∧ created !! "end" = updated !! "end".
Proof.
  assert (H1 : ({["date" := JStr "2025-01-10"; "time" := JStr "09:00"]}
                  : gmap string json) !! "date" = Some (JStr "2025-01-10"))
    by reflexivity.
  assert (H2 : ({["date" := JStr "2025-01-10"; "time" := JStr "09:00"]}
                  : gmap string json) !! "time" = Some (JStr "09:00"))
    by reflexivity.
  split; [exact H1|]. split; [exact H2|].
  destruct (X14_update_dates_as_create (L := Double.lib)
              {["summary" := JStr "Standup"]} _ _ _ H1 H2)
    as (created & updated & Hc & Hu & _ & Hs & He).
  exists created, updated. repeat split; assumption.
Defined.

(** An update of an event the calendar does not have. *)
Lemma X15_failed_update_changes_nothing_witness :
  headers (Double.keyed "k" ∅ (Return (JObj ∅))) !! "X-API-Key"
  = Some (API_KEY (Double.dev Double.fresh))
  ∧ @events_get Double.lib (Some Double.fresh) "primary" "e3"
      (calendar (Double.dev Double.fresh))
    = Raise (Double.not_found "e3")
  ∧ calendar
      (update_event "e3" (Double.keyed "k" ∅ (Return (JObj ∅)))
         (Double.dev Double.fresh)).2
    = calendar (Double.dev Double.fresh)
  ∧ calls
      (update_event "e3" (Double.keyed "k" ∅ (Return (JObj ∅)))
         (Double.dev Double.fresh)).2
    = [PathExists "token.pickle"; OpenRead "token.pickle"; Build;
       EventsGet "primary" "e3"].
Proof.
  assert (H1 : headers (Double.keyed "k" ∅ (Return (JObj ∅))) !! "X-API-Key"
               = Some (API_KEY (Double.dev Double.fresh))) by reflexivity.
  assert (H2 : @events_get Double.lib (Some Double.fresh) "primary" "e3"
                 (calendar (Double.dev Double.fresh))
               = Raise (Double.not_found "e3")) by reflexivity.
  split; [exact H1|]. split; [exact H2|].
  rewrite (proj1 (proj2 (X15_failed_update_changes_nothing "e3"
                           (Double.keyed "k" ∅ (Return (JObj ∅)))
                           (Double.dev Double.fresh) _ (Some Double.fresh)
                           H1 eq_refl)) _ _ eq_refl H2).
  split; reflexivity.
Defined.

(** A create request whose body is a list. *)
Lemma X16_create_needs_an_object_witness :
  headers (Double.keyed "k" ∅ (Return (JArr []))) !! "X-API-Key"
  = Some (API_KEY (Double.dev Double.fresh))
  ∧ ∃ msg,
      create_event (Double.keyed "k" ∅ (Return (JArr [])))
        (Double.dev Double.fresh)
      = (Return (dict [("success", JBool false); ("error", JStr msg)], 500),
         record (Double.dev Double.fresh)
           [PathExists "token.pickle"; OpenRead "token.pickle"; Build]).
Proof.
  assert (H1 : headers (Double.keyed "k" ∅ (Return (JArr []))) !! "X-API-Key"
               = Some (API_KEY (Double.dev Double.fresh))) by reflexivity.
  split; [exact H1|].
  exact (proj1 (proj2 (X16_create_needs_an_object
                         (Double.keyed "k" ∅ (Return (JArr [])))
                         (Double.dev Double.fresh) _ (Some Double.fresh)
                         H1 eq_refl))
           (JArr []) eq_refl ltac:(discriminate)).
Defined.

(** A create request to a provider that answers the insert with an
    empty document. *)
Lemma X18_create_can_fail_after_the_insert_witness :
  headers (Double.keyed "k" ∅ (Return (JObj ∅))) !! "X-API-Key"
  = Some (API_KEY (Faulty.dev Double.fresh))
  ∧ (create_event (Double.keyed "k" ∅ (Return (JObj ∅)))
       (Faulty.dev Double.fresh)).1
    = Return (dict [("success", JBool false); ("error", JStr "'id'")], 500)
  ∧ size (calendar (create_event (Double.keyed "k" ∅ (Return (JObj ∅)))
                      (Faulty.dev Double.fresh)).2) = 1%nat.
Proof.
  assert (H1 : headers (Double.keyed "k" ∅ (Return (JObj ∅))) !! "X-API-Key"
               = Some (API_KEY (Faulty.dev Double.fresh))) by reflexivity.
  split; [exact H1|].
  destruct (X18_create_can_fail_after_the_insert (L := Faulty.lib)
              (Double.keyed "k" ∅ (Return (JObj ∅)))
              (Faulty.dev Double.fresh) _ (Some Double.fresh)
              (JObj ∅) _ ∅ _ H1 eq_refl eq_refl eq_refl eq_refl eq_refl)
    as [Hresp Hcal].
  split; [exact Hresp|]. rewrite Hcal. reflexivity.
Defined.
